(** * Home Assistant core: Assist pipeline builder and Alexa flash briefings

    A shallow embedding of
      - homeassistant/components/assist_pipeline/__init__.py
        (async_setup, AudioStreamPipelineBuilder), and
      - homeassistant/components/alexa/flash_briefings.py
        (AlexaFlashBriefingView),
    together with the properties the design document states about them.

    Python dictionaries are stdpp finite maps, [T | None] is [option T],
    and code that raises or mutates runs in a small state-and-exception
    monad. *)

From Stdlib Require Import ZArith.
From stdpp Require Import gmap strings list fin_maps.

Open Scope string_scope.
Open Scope list_scope.
Open Scope nat_scope.

(** ** Python control flow: exceptions and mutable state *)

Module Py.

(** How a call ends: it returns a value or an exception escapes. *)
Inductive outcome (E A : Type) : Type :=
| Returned (a : A)
| Raised (e : E).
Arguments Returned {E A} a.
Arguments Raised {E A} e.

(** A computation over a mutable store [S] that may raise [E]. The store
    reached when an exception escapes is kept: what was done before the
    [raise] stays done. *)
Definition M (E S A : Type) : Type := S -> outcome E A * S.

Definition ret {E S A} (a : A) : M E S A := fun s => (Returned a, s).

Definition raise {E S A} (e : E) : M E S A := fun s => (Raised e, s).

Definition bind {E S A B} (m : M E S A) (k : A -> M E S B) : M E S B :=
  fun s =>
    match m s with
    | (Returned a, s') => k a s'
    | (Raised e, s') => (Raised e, s')
    end.

Definition modify {E S} (f : S -> S) : M E S unit := fun s => (Returned tt, f s).

(** [for x in xs: ys.append(f(x))], the results collected in order. *)
Fixpoint for_each {E S A B} (f : A -> M E S B) (xs : list A) : M E S (list B) :=
  match xs with
  | [] => ret []
  | x :: xs' => bind (f x) (fun y => bind (for_each f xs') (fun ys => ret (y :: ys)))
  end.

(** [bytes] values compare byte by byte. *)
#[global] Instance byte_eq_dec : EqDecision Byte.byte := Byte.byte_eq_dec.

(** Python's [all] over a list of truth values. *)
Definition all_ (l : list bool) : bool := forallb id l.

(** [bool(x)] for [x : T | None]: [None] is false, and an instance of [T]
    is as true as [T] makes it, [truth v] standing for [bool(v)]. *)
Definition truthy {A} (truth : A -> bool) (x : option A) : bool :=
  match x with Some v => truth v | None => false end.

(** [x or d] for [x : T | None] where [T] is a dataclass that defines
    neither [__bool__] nor [__len__], so that every instance is true. *)
Definition or_else {A} (x : option A) (d : A) : A :=
  match x with Some v => v | None => d end.

End Py.

Import Py.

Declare Scope py_scope.
Delimit Scope py_scope with py.
Notation "'let*' x ':=' m 'in' k" := (bind m (fun x => k))
  (at level 10, x pattern, m at level 100, k at level 200) : py_scope.
Notation "m ';;' k" := (bind m (fun _ => k))
  (at level 100, k at level 200, right associativity) : py_scope.

(** ** homeassistant/components/assist_pipeline/__init__.py *)

Module AssistPipeline.

(** Classes and values this file imports from modules outside it
    (homeassistant.core, homeassistant.components.stt, .pipeline). They
    are carried around and never inspected, except that [build] tests the
    truth of its four required values: what [bool] answers for each of
    them is the business of its class. *)
Class ExternalTypes : Type := {
  Context : Type;                (* homeassistant.core.Context *)
  Context_bool : Context -> bool;                              (* bool(context) *)
  PipelineEventCallback : Type;  (* Callable[[PipelineEvent], None] *)
  PipelineEventCallback_bool : PipelineEventCallback -> bool;  (* bool(callback) *)
  SpeechMetadata : Type;         (* stt.SpeechMetadata *)
  SpeechMetadata_bool : SpeechMetadata -> bool;                (* bool(metadata) *)
  AudioStream : Type;            (* AsyncIterable[bytes] *)
  AudioStream_bool : AudioStream -> bool;                      (* bool(stream) *)
  WakeWordSettings : Type;
  AudioSettings : Type;
  AudioSettings_default : AudioSettings;  (* AudioSettings() *)
  TtsAudioOutput : Type;         (* str | dict[str, Any] *)
  Pipeline : Type;               (* a resolved pipeline configuration *)
  PipelineEvent : Type;
  HassDatum : Type;              (* hass.data entries of other components *)
  ForeignError : Type;           (* exceptions of the called components *)
}.

(** Modelled from the spec: the declaration of PipelineStage, which lives
    in .pipeline. "Ordered enum {WAKE_WORD, STT, INTENT, TTS}"; a run
    has a start and an end stage and "only stages within that inclusive
    range execute". *)
Inductive PipelineStage : Type := WAKE_WORD | STT | INTENT | TTS.

Definition stage_index (s : PipelineStage) : nat :=
  match s with WAKE_WORD => 0 | STT => 1 | INTENT => 2 | TTS => 3 end.

Definition stage_in_range (s start_stage end_stage : PipelineStage) : bool :=
  (stage_index start_stage <=? stage_index s) && (stage_index s <=? stage_index end_stage).

Section Definitions.
Context `{T : ExternalTypes}.

(** Modelled from the spec: the store of pipeline configurations behind
    [async_get_pipeline], which is declared in .pipeline. Configurations
    are "looked up by identifier or a preferred default". *)
Record PipelineRegistry : Type := {
  pipelines : gmap string Pipeline;
  default_pipeline : option Pipeline;
}.

(** One entry of [hass.data]. *)
Inductive DataValue : Type :=
| ConfigData (c : gmap string string)   (* this integration's config section *)
| LastWakeUp (m : gmap string Z)        (* wake_word_id -> monotonic_ns *)
| ForeignData (d : HassDatum).

Record HomeAssistant : Type := {
  data : gmap string DataValue;
  pipeline_store : PipelineRegistry;
}.

Definition set_data (k : string) (v : DataValue) (hass : HomeAssistant) : HomeAssistant :=
  {| data := <[k := v]> (data hass); pipeline_store := pipeline_store hass |}.

(** Where an exception that [build] or [async_setup] lets through was
    raised. *)
Inductive CallSite : Type :=
| InPipelineRun | InPipelineInput | InValidate | InExecute
| InSetupPipelineStore | InRunMigrations | InRegisterWebsocketApi.

Inductive PyError : Type :=
| ValueError (msg : string)
| PipelineNotFound (pipeline_id : option string)
| Propagated (site : CallSite) (e : ForeignError).

(** *** async_setup *)

Section Setup.
(** Keys of [hass.data] and the domain name, from .const. *)
Variables DOMAIN DATA_CONFIG DATA_LAST_WAKE_UP : string.
(** The three set-up steps of other modules, as actions on [hass]. *)
Variables async_setup_pipeline_store async_run_migrations
          async_register_websocket_api : M ForeignError HomeAssistant unit.

Definition at_site {A} (site : CallSite) (m : M ForeignError HomeAssistant A)
  : M PyError HomeAssistant A :=
  fun hass =>
    match m hass with
    | (Returned a, hass') => (Returned a, hass')
    | (Raised e, hass') => (Raised (Propagated site e), hass')
    end.

Definition async_setup (config : gmap string (gmap string string))
  : M PyError HomeAssistant bool :=
  (modify (set_data DATA_CONFIG (ConfigData (default ∅ (config !! DOMAIN)))) ;;
   (* wake_word_id -> timestamp of last detection (monotonic_ns) *)
   modify (set_data DATA_LAST_WAKE_UP (LastWakeUp ∅)) ;;
   at_site InSetupPipelineStore async_setup_pipeline_store ;;
   at_site InRunMigrations async_run_migrations ;;
   at_site InRegisterWebsocketApi async_register_websocket_api ;;
   ret true)%py.
End Setup.

(** *** AudioStreamPipelineBuilder *)

Record AudioStreamPipelineBuilder : Type := {
  hass : HomeAssistant;
  context : option Context;
  event_callback : option PipelineEventCallback;
  stt_metadata : option SpeechMetadata;
  stt_stream : option AudioStream;
  wake_word_phrase : option string;
  pipeline_id : option string;
  conversation_id : option string;
  tts_audio_output : option TtsAudioOutput;
  wake_word_settings : option WakeWordSettings;
  audio_settings : option AudioSettings;
  device_id : option string;
  start_stage : PipelineStage;
  end_stage : PipelineStage;
}.

Definition __init__ (hass : HomeAssistant) : AudioStreamPipelineBuilder :=
  {| hass := hass;
     context := None;
     event_callback := None;
     stt_metadata := None;
     stt_stream := None;
     wake_word_phrase := None;
     pipeline_id := None;
     conversation_id := None;
     tts_audio_output := None;
     wake_word_settings := None;
     audio_settings := None;
     device_id := None;
     start_stage := STT;
     end_stage := TTS |}.

(** The keyword arguments [build] passes to [PipelineRun(...)]. *)
Record PipelineRun : Type := {
  run_hass : HomeAssistant;
  run_context : Context;
  run_pipeline : Pipeline;
  run_start_stage : PipelineStage;
  run_end_stage : PipelineStage;
  run_event_callback : PipelineEventCallback;
  run_tts_audio_output : option TtsAudioOutput;
  run_wake_word_settings : option WakeWordSettings;
  run_audio_settings : AudioSettings;
}.

(** The keyword arguments [build] passes to [PipelineInput(...)]. *)
Record PipelineInput : Type := {
  in_conversation_id : option string;
  in_device_id : option string;
  in_stt_metadata : SpeechMetadata;
  in_stt_stream : AudioStream;
  in_wake_word_phrase : option string;
  in_run : PipelineRun;
}.

(** What a pipeline does to the outside while it validates or runs. *)
Inductive Effect : Type :=
| AudioConsumed (chunk : list Byte.byte)
| EventEmitted (callback : PipelineEventCallback) (event : PipelineEvent).

(** What [build] does, in order: the store of the builder's monad is
    the list of these steps taken so far. *)
Inductive Action : Type :=
| ResolvePipeline (pipeline_id : option string)
| ConstructRun (run : PipelineRun)
| ConstructInput (pipeline_input : PipelineInput)
| Validate (pipeline_input : PipelineInput) (effects : list Effect)
| Execute (pipeline_input : PipelineInput) (effects : list Effect).

Definition Trace : Type := list Action.

Definition record (a : Action) : M PyError Trace unit := modify (fun t => t ++ [a]).

(** Modelled from the spec: which configuration an optional identifier
    stands for. The spec "resolves a pipeline configuration by identifier
    or default": the identifier's own configuration if it has one, the
    default otherwise, and none when "the identifier does not resolve and
    no default exists". *)
Definition resolve (registry : PipelineRegistry) (pipeline_id : option string)
  : option Pipeline :=
  match pipeline_id ≫= (fun i => pipelines registry !! i) with
  | Some p => Some p
  | None => default_pipeline registry
  end.

(** Modelled from the spec: [async_get_pipeline] of .pipeline,
    [get(pipeline_id | None) -> PipelineConfiguration |
    PipelineNotFoundError]. *)
Definition async_get_pipeline (hass : HomeAssistant) (pipeline_id : option string)
  : M PyError Trace Pipeline :=
  (record (ResolvePipeline pipeline_id) ;;
   match resolve (pipeline_store hass) pipeline_id with
   | Some p => ret p
   | None => raise (PipelineNotFound pipeline_id)
   end)%py.

(** The classes PipelineRun and PipelineInput belong to .pipeline. A
    constructor call either yields the object with the fields it was
    given or raises ([new_run], [new_input]: the exception, if any);
    [PipelineInput.validate] and [PipelineInput.execute] are each given by
    the effects of a call and the exception it ends with, if any. *)
Record PipelineBehaviour : Type := {
  new_run : PipelineRun -> option ForeignError;
  new_input : PipelineInput -> option ForeignError;
  validate : PipelineInput -> list Effect * option ForeignError;
  execute : PipelineInput -> list Effect * option ForeignError;
}.

Definition finish (site : CallSite) (r : option ForeignError) : M PyError Trace unit :=
  match r with
  | None => ret tt
  | Some e => raise (Propagated site e)
  end.

Definition build (env : PipelineBehaviour) (self : AudioStreamPipelineBuilder)
  : M PyError Trace unit :=
  if negb (all_ [truthy Context_bool (context self);
                 truthy PipelineEventCallback_bool (event_callback self);
                 truthy SpeechMetadata_bool (stt_metadata self);
                 truthy AudioStream_bool (stt_stream self)])
  then raise (ValueError "Missing required parameters")
  else
    match context self, event_callback self, stt_metadata self, stt_stream self with
    | Some ctx, Some cb, Some metadata, Some stream =>
      (let* pipeline := async_get_pipeline (hass self) (pipeline_id self) in
       let run :=
         {| run_hass := hass self;
            run_context := ctx;
            run_pipeline := pipeline;
            run_start_stage := start_stage self;
            run_end_stage := end_stage self;
            run_event_callback := cb;
            run_tts_audio_output := tts_audio_output self;
            run_wake_word_settings := wake_word_settings self;
            run_audio_settings := or_else (audio_settings self) AudioSettings_default |} in
       finish InPipelineRun (new_run env run) ;;
       record (ConstructRun run) ;;
       let pipeline_input :=
         {| in_conversation_id := conversation_id self;
            in_device_id := device_id self;
            in_stt_metadata := metadata;
            in_stt_stream := stream;
            in_wake_word_phrase := wake_word_phrase self;
            in_run := run |} in
       finish InPipelineInput (new_input env pipeline_input) ;;
       record (ConstructInput pipeline_input) ;;
       record (Validate pipeline_input (validate env pipeline_input).1) ;;
       finish InValidate (validate env pipeline_input).2 ;;
       record (Execute pipeline_input (execute env pipeline_input).1) ;;
       finish InExecute (execute env pipeline_input).2)%py
    | _, _, _, _ =>
      (* not reached: the four casts are applied to values just checked *)
      raise (ValueError "Missing required parameters")
    end.
End Definitions.

End AssistPipeline.

(** ** homeassistant/components/alexa/flash_briefings.py *)

Module FlashBriefings.

(** The members of [http.HTTPStatus] the view uses. *)
Inductive HTTPStatus : Type := OK | UNAUTHORIZED | NOT_FOUND.

Definition status_code (s : HTTPStatus) : Z :=
  match s with OK => 200 | UNAUTHORIZED => 401 | NOT_FOUND => 404 end%Z.

(** The names imported from .const and homeassistant.const. *)
Class Constants : Type := {
  API_PASSWORD : string;
  ATTR_MAIN_TEXT : string;
  ATTR_REDIRECTION_URL : string;
  ATTR_STREAM_URL : string;
  ATTR_TITLE_TEXT : string;
  ATTR_UID : string;
  ATTR_UPDATE_DATE : string;
  CONF_AUDIO : string;
  CONF_DISPLAY_URL : string;
  CONF_TEXT : string;
  CONF_TITLE : string;
  CONF_UID : string;
  DATE_FORMAT : string;
  CONF_PASSWORD : string;
}.

(** The attribute keys of one briefing entry, in the order they are set. *)
Definition attribute_keys `{Constants} : list string :=
  [ATTR_TITLE_TEXT; ATTR_MAIN_TEXT; ATTR_UID; ATTR_STREAM_URL; ATTR_REDIRECTION_URL;
   ATTR_UPDATE_DATE].

(** What the view calls outside this file: template rendering, the UUID
    generator and the clock. The n-th call to [uuid.uuid4] and the n-th
    reading of the clock are given by functions of n; the world below
    counts the calls. *)
Class Runtime : Type := {
  Template : Type;                       (* template.Template *)
  async_render : Template -> string;     (* .async_render(parse_result=False) *)
  uuid4 : nat -> string;                 (* str(uuid.uuid4()) *)
  DateTime : Type;
  utcnow : nat -> DateTime;              (* dt_util.utcnow() *)
  strftime : DateTime -> string -> string;
}.

Inductive Level : Type := DEBUG | ERROR.

Record World : Type := {
  uuid_calls : nat;
  clock_reads : nat;
  log : list (Level * string * string);
}.

Inductive PyError : Type :=
| KeyError (key : string)
| AttributeError (attribute : string)
| HTTPInternalServerError.

Section Definitions.
Context `{C : Constants} `{R : Runtime}.

(** A value of a briefing item's dictionary, and of the output built
    from it. *)
Inductive Value : Type :=
| VNone
| VStr (s : string)
| VTemplate (t : Template)
| VInt (z : Z).

Definition is_None (v : Value) : bool :=
  match v with VNone => true | _ => false end.

(** [item.get(key)]: [None] when the key is absent. *)
Definition dict_get (item : gmap string Value) (key : string) : Value :=
  default VNone (item !! key).

(** A value of the flash-briefings configuration: a plain value such as
    the password string, or the list of items of one briefing. *)
Inductive ConfigValue : Type :=
| CValue (v : Value)
| CList (items : list (gmap string Value)).

Record AlexaFlashBriefingView : Type := {
  flash_briefings : gmap string ConfigValue;
}.

Record HomeAssistantRequest : Type := {
  query : gmap string string;
}.

(** [(body, status)] or [self.json(result)]. *)
Inductive Response : Type :=
| Plain (body : list Byte.byte) (status : HTTPStatus)
| Json (result : list (gmap string Value)) (status : HTTPStatus).

(** [HomeAssistantView.json] belongs to homeassistant.components.http: it
    answers with the serialised result and status OK, and raises
    HTTPInternalServerError for a result that cannot be serialised. Which
    results can is the encoder's to say. *)
Class JsonEncoder : Type := {
  serialisable : list (gmap string Value) -> bool;
}.

Context `{J : JsonEncoder}.

Definition json (result : list (gmap string Value)) : M PyError World Response :=
  if serialisable result then ret (Json result OK) else raise HTTPInternalServerError.

Definition logger (level : Level) (msg arg : string) : M PyError World unit :=
  modify (fun w => {| uuid_calls := uuid_calls w;
                      clock_reads := clock_reads w;
                      log := log w ++ [(level, msg, arg)] |}).

Definition uuid_uuid4 : M PyError World string :=
  fun w => (Returned (uuid4 (uuid_calls w)),
            {| uuid_calls := S (uuid_calls w);
               clock_reads := clock_reads w;
               log := log w |}).

Definition dt_util_utcnow : M PyError World DateTime :=
  fun w => (Returned (utcnow (clock_reads w)),
            {| uuid_calls := uuid_calls w;
               clock_reads := S (clock_reads w);
               log := log w |}).

(** [s.encode("utf-8")]: a [string] is its UTF-8 bytes. *)
Definition encode (s : string) : list Byte.byte := String.list_byte_of_string s.

(** [hmac.compare_digest]: equality of the two byte strings. *)
Definition compare_digest (a b : list Byte.byte) : bool := bool_decide (a = b).

Definition _authenticate (self : AlexaFlashBriefingView)
           (request : HomeAssistantRequest) (briefing_id : string)
  : M PyError World bool :=
  match query request !! API_PASSWORD with
  | None =>
    (logger ERROR "No password provided for Alexa flash briefing: %s" briefing_id ;;
     ret false)%py
  | Some given =>
    match flash_briefings self !! CONF_PASSWORD with
    | None => raise (KeyError CONF_PASSWORD)
    | Some (CValue (VStr password)) =>
      if negb (compare_digest (encode given) (encode password))
      then (logger ERROR "Wrong password for Alexa flash briefing: %s" briefing_id ;;
            ret false)%py
      else ret true
    | Some _ => raise (AttributeError "encode")
    end
  end.

Definition _add_text_field (output item : gmap string Value) (conf_key attr_key : string)
  : gmap string Value :=
  if negb (is_None (dict_get item conf_key)) then
    match dict_get item conf_key with
    | VTemplate t => <[attr_key := VStr (async_render t)]> output
    | _ => <[attr_key := dict_get item conf_key]> output
    end
  else output.

Definition _add_uid (output item : gmap string Value)
  : M PyError World (gmap string Value) :=
  (let uid := dict_get item CONF_UID in
   let* uid := (if is_None uid
                then (let* u := uuid_uuid4 in ret (VStr u))
                else ret uid) in
   ret (<[ATTR_UID := uid]> output))%py.

Definition _process_briefing_item (item : gmap string Value)
  : M PyError World (gmap string Value) :=
  (let output := ∅ in
   let output := _add_text_field output item CONF_TITLE ATTR_TITLE_TEXT in
   let output := _add_text_field output item CONF_TEXT ATTR_MAIN_TEXT in
   let* output := _add_uid output item in
   let output := _add_text_field output item CONF_AUDIO ATTR_STREAM_URL in
   let output := _add_text_field output item CONF_DISPLAY_URL ATTR_REDIRECTION_URL in
   let* now := dt_util_utcnow in
   ret (<[ATTR_UPDATE_DATE := VStr (strftime now DATE_FORMAT)]> output))%py.

Definition _generate_briefing (briefing_config : list (gmap string Value))
  : M PyError World (list (gmap string Value)) :=
  for_each _process_briefing_item briefing_config.

Definition get (self : AlexaFlashBriefingView)
           (request : HomeAssistantRequest) (briefing_id : string)
  : M PyError World Response :=
  (logger DEBUG "Received Alexa flash briefing request for: %s" briefing_id ;;
   let* authenticated := _authenticate self request briefing_id in
   if negb authenticated then ret (Plain [] UNAUTHORIZED)
   else
     match flash_briefings self !! briefing_id with
     | Some (CList briefing_config) =>
       let* briefing := _generate_briefing briefing_config in
       json briefing
     | _ =>
       logger ERROR "No configured Alexa flash briefing was found for: %s" briefing_id ;;
       ret (Plain [] NOT_FOUND)
     end)%py.
End Definitions.

End FlashBriefings.

(** ** Vocabulary of the statements *)

Module AssistPipelineSpec.
Import AssistPipeline.

Section Vocabulary.
Context `{T : ExternalTypes}.

(** The run [build] constructs once the four required fields and the
    pipeline are at hand. *)
Definition built_run (self : AudioStreamPipelineBuilder) (ctx : Context)
           (cb : PipelineEventCallback) (pipeline : Pipeline) : PipelineRun :=
  {| run_hass := hass self;
     run_context := ctx;
     run_pipeline := pipeline;
     run_start_stage := start_stage self;
     run_end_stage := end_stage self;
     run_event_callback := cb;
     run_tts_audio_output := tts_audio_output self;
     run_wake_word_settings := wake_word_settings self;
     run_audio_settings := or_else (audio_settings self) AudioSettings_default |}.

Definition built_input (self : AudioStreamPipelineBuilder) (metadata : SpeechMetadata)
           (stream : AudioStream) (run : PipelineRun) : PipelineInput :=
  {| in_conversation_id := conversation_id self;
     in_device_id := device_id self;
     in_stt_metadata := metadata;
     in_stt_stream := stream;
     in_wake_word_phrase := wake_word_phrase self;
     in_run := run |}.

(** One of the four required fields is [None]. *)
Definition missing_required (self : AudioStreamPipelineBuilder) : Prop :=
  context self = None \/ event_callback self = None \/
  stt_metadata self = None \/ stt_stream self = None.

(** The four required fields are set and true: [all([...])] holds. *)
Definition required_true (self : AudioStreamPipelineBuilder) : Prop :=
  truthy Context_bool (context self) = true /\
  truthy PipelineEventCallback_bool (event_callback self) = true /\
  truthy SpeechMetadata_bool (stt_metadata self) = true /\
  truthy AudioStream_bool (stt_stream self) = true.

(** The steps a call added to the trace it started from. *)
Definition steps_since (before after : Trace) : Trace := drop (length before) after.

Definition is_Execute (a : Action) : bool :=
  match a with Execute _ _ => true | _ => false end.

(** The builder left the pipeline unrun: no call of [execute] among the
    steps it took. *)
Definition leaves_pipeline_unrun (steps : Trace) : Prop :=
  forallb (fun a => negb (is_Execute a)) steps = true.

(** A set-up step that does not touch the entry [k] of [hass.data]. *)
Definition preserves_key (k : string) (m : M ForeignError HomeAssistant unit) : Prop :=
  forall h, data (m h).2 !! k = data h !! k.

Definition always_returns (m : M ForeignError HomeAssistant unit) : Prop :=
  forall h, (m h).1 = Returned tt.

(** What a call does past the check, by the first thing that fails. *)
Definition build_outcome (env : PipelineBehaviour) (self : AudioStreamPipelineBuilder)
           (tr : Trace) (ctx : Context) (cb : PipelineEventCallback)
           (metadata : SpeechMetadata) (stream : AudioStream) : outcome PyError unit * Trace :=
  match resolve (pipeline_store (hass self)) (pipeline_id self) with
  | None =>
    (Raised (PipelineNotFound (pipeline_id self)), tr ++ [ResolvePipeline (pipeline_id self)])
  | Some pipeline =>
    let run := built_run self ctx cb pipeline in
    let i := built_input self metadata stream run in
    match new_run env run with
    | Some e =>
      (Raised (Propagated InPipelineRun e), tr ++ [ResolvePipeline (pipeline_id self)])
    | None =>
      match new_input env i with
      | Some e =>
        (Raised (Propagated InPipelineInput e),
         tr ++ [ResolvePipeline (pipeline_id self); ConstructRun run])
      | None =>
        let validated :=
          tr ++ [ResolvePipeline (pipeline_id self); ConstructRun run; ConstructInput i;
                 Validate i (validate env i).1] in
        match (validate env i).2 with
        | Some e => (Raised (Propagated InValidate e), validated)
        | None =>
          match (execute env i).2 with
          | Some e =>
            (Raised (Propagated InExecute e), validated ++ [Execute i (execute env i).1])
          | None => (Returned tt, validated ++ [Execute i (execute env i).1])
          end
        end
      end
    end
  end.

(** The steps of a call past the check and the lookup, as far as the
    constructors and the validation let it go. *)
Definition steps_after_lookup (env : PipelineBehaviour) (self : AudioStreamPipelineBuilder)
           (run : PipelineRun) (i : PipelineInput) : Trace :=
  ResolvePipeline (pipeline_id self) ::
  match new_run env run with
  | Some _ => []
  | None =>
    ConstructRun run ::
    match new_input env i with
    | Some _ => []
    | None =>
      ConstructInput i :: Validate i (validate env i).1 ::
      match (validate env i).2 with
      | Some _ => []
      | None => [Execute i (execute env i).1]
      end
    end
  end.
End Vocabulary.

(** *** A concrete instance: every external class is a name or a number,
    and the audio stream a buffer of chunks that is false when empty *)

Definition demo_types : ExternalTypes :=
  {| Context := string;
     Context_bool := fun _ => true;
     PipelineEventCallback := string;
     PipelineEventCallback_bool := fun _ => true;
     SpeechMetadata := string;
     SpeechMetadata_bool := fun _ => true;
     AudioStream := list (list Byte.byte);
     AudioStream_bool := fun chunks => negb (bool_decide (chunks = []));
     WakeWordSettings := nat;
     AudioSettings := nat;
     AudioSettings_default := 0;
     TtsAudioOutput := string;
     Pipeline := string;
     PipelineEvent := string;
     HassDatum := nat;
     ForeignError := string |}.

#[local] Existing Instance demo_types.

Definition demo_hass : @HomeAssistant demo_types :=
  {| data := ∅;
     pipeline_store := {| pipelines := {[ "kitchen" := "Kitchen pipeline" ]};
                          default_pipeline := Some "Preferred pipeline" |} |}.

(** A store with one pipeline and no default. *)
Definition bare_hass : @HomeAssistant demo_types :=
  {| data := ∅;
     pipeline_store := {| pipelines := {[ "kitchen" := "Kitchen pipeline" ]};
                          default_pipeline := None |} |}.

Definition demo_stream : list (list Byte.byte) := [[Byte.x01; Byte.x02]; [Byte.x03]].

(** A builder with the four required fields assigned. *)
Definition demo_builder (h : @HomeAssistant demo_types) (pid : option string)
           (settings : option nat) : @AudioStreamPipelineBuilder demo_types :=
  {| hass := h;
     context := Some "ctx";
     event_callback := Some "on_event";
     stt_metadata := Some "en-US/wav";
     stt_stream := Some demo_stream;
     wake_word_phrase := None;
     pipeline_id := pid;
     conversation_id := None;
     tts_audio_output := None;
     wake_word_settings := None;
     audio_settings := settings;
     device_id := None;
     start_stage := STT;
     end_stage := TTS |}.

(** The same builder with a stream assigned that holds no chunk. *)
Definition demo_builder_empty_stream : @AudioStreamPipelineBuilder demo_types :=
  {| hass := demo_hass;
     context := Some "ctx";
     event_callback := Some "on_event";
     stt_metadata := Some "en-US/wav";
     stt_stream := Some [];
     wake_word_phrase := None;
     pipeline_id := None;
     conversation_id := None;
     tts_audio_output := None;
     wake_word_settings := None;
     audio_settings := None;
     device_id := None;
     start_stage := STT;
     end_stage := TTS |}.

(** The same builder before the audio stream was assigned. *)
Definition demo_builder_no_stream : @AudioStreamPipelineBuilder demo_types :=
  {| hass := demo_hass;
     context := Some "ctx";
     event_callback := Some "on_event";
     stt_metadata := Some "en-US/wav";
     stt_stream := None;
     wake_word_phrase := None;
     pipeline_id := None;
     conversation_id := None;
     tts_audio_output := None;
     wake_word_settings := None;
     audio_settings := None;
     device_id := None;
     start_stage := STT;
     end_stage := TTS |}.

(** A run is refused when its stage range is empty. *)
Definition demo_new_run (run : @PipelineRun demo_types) : option string :=
  if stage_index (run_end_stage run) <? stage_index (run_start_stage run)
  then Some "invalid-pipeline-stages" else None.

(** A pipeline whose validation reads nothing and whose run consumes the
    stream and reports to the callback of its run. *)
Definition demo_env : @PipelineBehaviour demo_types :=
  {| new_run := demo_new_run;
     new_input := fun _ => None;
     validate := fun _ => ([], None);
     execute := fun i =>
       (map (@AudioConsumed demo_types) (in_stt_stream i) ++
        [@EventEmitted demo_types (run_event_callback (in_run i)) "run-end"], None) |}.

Definition demo_setup_pipeline_store : M string (@HomeAssistant demo_types) unit :=
  modify (set_data "assist_pipeline.pipelines" (@ForeignData demo_types 1)).

Definition demo_setup_noop : M string (@HomeAssistant demo_types) unit := ret tt.

(** A [hass] that already has wake-word detections on record. *)
Definition woken_hass : @HomeAssistant demo_types :=
  {| data := {[ "assist_pipeline.last_wake_up" := @LastWakeUp demo_types {[ "okay nabu" := 17%Z ]} ]};
     pipeline_store := {| pipelines := ∅; default_pipeline := None |} |}.

(** The run and the input the demo builder leads to. *)
Definition demo_run : @PipelineRun demo_types :=
  built_run (demo_builder demo_hass None None) "ctx" "on_event" "Preferred pipeline".

Definition demo_input : @PipelineInput demo_types :=
  built_input (demo_builder demo_hass None None) "en-US/wav" demo_stream demo_run.

Definition demo_run_effects : list (@Effect demo_types) :=
  [AudioConsumed [Byte.x01; Byte.x02]; AudioConsumed [Byte.x03];
   EventEmitted "on_event" "run-end"].

End AssistPipelineSpec.

Module FlashBriefingsSpec.
Import FlashBriefings.

Section Vocabulary.
Context `{C : Constants} `{R : Runtime}.

(** The configuration keys of the text fields and the attributes they
    become. *)
Definition text_fields : list (string * string) :=
  [(CONF_TITLE, ATTR_TITLE_TEXT); (CONF_TEXT, ATTR_MAIN_TEXT);
   (CONF_AUDIO, ATTR_STREAM_URL); (CONF_DISPLAY_URL, ATTR_REDIRECTION_URL)].

(** The key is in the dictionary with a value other than [None]. *)
Definition configured (item : gmap string Value) (key : string) : Prop :=
  exists v, item !! key = Some v /\ v <> VNone.

(** What a text field holds in the output: templates are rendered. *)
Definition text_value (v : Value) : Value :=
  match v with VTemplate t => VStr (async_render t) | _ => v end.

(** The items of a list that have no uid of their own configured. *)
Definition without_uid (items : list (gmap string Value)) : nat :=
  length (filter (fun item => is_None (dict_get item CONF_UID) = true) items).

(** No UUID was drawn and the clock was not read: nothing of a
    briefing was generated between the two worlds. *)
Definition nothing_generated (before after : World) : Prop :=
  uuid_calls after = uuid_calls before /\ clock_reads after = clock_reads before.
End Vocabulary.

(** *** A concrete instance: the constants as the integration declares
    them, and a runtime with the first UUIDs and clock readings fixed *)

Definition demo_constants : Constants :=
  {| API_PASSWORD := "password";
     ATTR_MAIN_TEXT := "mainText";
     ATTR_REDIRECTION_URL := "redirectionURL";
     ATTR_STREAM_URL := "streamUrl";
     ATTR_TITLE_TEXT := "titleText";
     ATTR_UID := "uid";
     ATTR_UPDATE_DATE := "updateDate";
     CONF_AUDIO := "audio";
     CONF_DISPLAY_URL := "display_url";
     CONF_TEXT := "text";
     CONF_TITLE := "title";
     CONF_UID := "uid";
     DATE_FORMAT := "%Y-%m-%dT%H:%M:%S.0Z";
     CONF_PASSWORD := "password" |}.

Definition demo_runtime : Runtime :=
  {| Template := string;
     async_render := fun source => "<" +:+ source +:+ ">";
     uuid4 := fun n => nth n ["1b4e28ba-2fa1-41d2-883f-0016d3cca427";
                              "6fa459ea-ee8a-4ca4-894e-db77e160355e"]
                             "16fd2706-8baf-433b-82eb-8c7fada847da";
     DateTime := string;
     utcnow := fun n => nth n ["2024-05-01T07:00:00.0Z"; "2024-05-01T07:00:01.0Z"]
                              "2024-05-01T07:00:02.0Z";
     strftime := fun t _ => t |}.

#[local] Existing Instance demo_constants.
#[local] Existing Instance demo_runtime.

(** An encoder that takes strings, [None] and integers of at most 64
    bits, and refuses templates and larger integers. *)
Definition demo_value_serialisable (v : @Value demo_runtime) : bool :=
  match v with
  | VNone | VStr _ => true
  | VInt z => ((- 2 ^ 63 <=? z) && (z <? 2 ^ 64))%Z
  | VTemplate _ => false
  end.

Definition demo_encoder : @JsonEncoder demo_runtime :=
  {| serialisable := fun briefing =>
       forallb (fun entry => forallb demo_value_serialisable (map_to_list entry).*2)
               briefing |}.

#[local] Existing Instance demo_encoder.

Definition headline_item : gmap string Value :=
  {[ "title" := VTemplate "states('sensor.headline')";
     "text" := VStr "Good morning";
     "uid" := VStr "headline-1";
     "audio" := VNone ]}.

Definition stream_item : gmap string Value :=
  {[ "audio" := VStr "https://example.org/news.mp3" ]}.

Definition demo_view : AlexaFlashBriefingView :=
  {| flash_briefings :=
       {[ "password" := CValue (VStr "s3cret");
          "news" := CList [headline_item; stream_item] ]} |}.

Definition request_with (q : gmap string string) : HomeAssistantRequest := {| query := q |}.

Definition fresh_world : World := {| uuid_calls := 0; clock_reads := 0; log := [] |}.

End FlashBriefingsSpec.

(** ** Further vocabulary and instances *)

Module AssistPipelineCases.
Import AssistPipeline AssistPipelineSpec.

Section Vocabulary.
Context `{T : ExternalTypes}.

(** [hass] after the two assignments that open [async_setup], before the
    set-up steps of the other modules run. *)
Definition setup_base (DOMAIN DATA_CONFIG DATA_LAST_WAKE_UP : string)
           (config : gmap string (gmap string string)) (h : HomeAssistant) : HomeAssistant :=
  set_data DATA_LAST_WAKE_UP (LastWakeUp ∅)
           (set_data DATA_CONFIG (ConfigData (default ∅ (config !! DOMAIN))) h).

(** The call sites inside [async_setup]. *)
Definition setup_sites : list CallSite :=
  [InSetupPipelineStore; InRunMigrations; InRegisterWebsocketApi].
End Vocabulary.

#[local] Existing Instance demo_types.

(** A pipeline that rejects every input at validation, after the engine
    lookup emitted nothing. *)
Definition strict_env : @PipelineBehaviour demo_types :=
  {| new_run := demo_new_run;
     new_input := fun _ => None;
     validate := fun _ => ([], Some "stt-provider-unsupported-metadata");
     execute := execute demo_env |}.

(** A pipeline that validates, reads one chunk and then fails. *)
Definition crashing_env : @PipelineBehaviour demo_types :=
  {| new_run := demo_new_run;
     new_input := fun _ => None;
     validate := fun _ => ([], None);
     execute := fun i =>
       (map (@AudioConsumed demo_types) (take 1 (in_stt_stream i)), Some "stt-stream-failed") |}.

(** The complete builder asked to run from TTS back to STT. *)
Definition demo_builder_reversed : @AudioStreamPipelineBuilder demo_types :=
  {| hass := demo_hass;
     context := Some "ctx";
     event_callback := Some "on_event";
     stt_metadata := Some "en-US/wav";
     stt_stream := Some demo_stream;
     wake_word_phrase := None;
     pipeline_id := None;
     conversation_id := None;
     tts_audio_output := None;
     wake_word_settings := None;
     audio_settings := None;
     device_id := None;
     start_stage := TTS;
     end_stage := STT |}.

(** A set-up step that fails on whatever [hass] it is given. *)
Definition demo_setup_failing : M string (@HomeAssistant demo_types) unit :=
  raise "pipeline storage unreadable".

(** A configuration with a section for the integration and one for
    another. *)
Definition demo_config : gmap string (gmap string string) :=
  {[ "assist_pipeline" := {[ "debug_recording_dir" := "/share/recordings" ]};
     "logger" := {[ "default" := "info" ]} ]}.

End AssistPipelineCases.

Module FlashBriefingsCases.
Import FlashBriefings FlashBriefingsSpec.

Section Vocabulary.
Context `{C : Constants} `{R : Runtime}.

(** The world with one more record in its log. *)
Definition logged (level : Level) (msg arg : string) (w : World) : World :=
  {| uuid_calls := uuid_calls w;
     clock_reads := clock_reads w;
     log := log w ++ [(level, msg, arg)] |}.

(** The four messages the view writes. *)
Definition MSG_RECEIVED : string := "Received Alexa flash briefing request for: %s".
Definition MSG_NO_PASSWORD : string := "No password provided for Alexa flash briefing: %s".
Definition MSG_WRONG_PASSWORD : string := "Wrong password for Alexa flash briefing: %s".
Definition MSG_NOT_FOUND : string := "No configured Alexa flash briefing was found for: %s".

(** [isinstance(v, template.Template)]. *)
Definition is_Template (v : Value) : bool :=
  match v with VTemplate _ => true | _ => false end.
End Vocabulary.

#[local] Existing Instance demo_constants.
#[local] Existing Instance demo_runtime.

(** A configuration that lacks the password. *)
Definition open_view : AlexaFlashBriefingView :=
  {| flash_briefings := {[ "news" := CList [headline_item; stream_item] ]} |}.

(** A configuration whose password entry is a list. *)
Definition broken_view : AlexaFlashBriefingView :=
  {| flash_briefings := {[ "password" := CList []; "news" := CList [stream_item] ]} |}.

(** A runtime whose n-th UUID is n strokes: no two calls agree. *)
Fixpoint strokes (n : nat) : string :=
  match n with
  | 0 => ""
  | S n' => "|" +:+ strokes n'
  end.

Definition tally_runtime : Runtime :=
  {| Template := string;
     async_render := fun source => source;
     uuid4 := strokes;
     DateTime := nat;
     utcnow := fun n => n;
     strftime := fun t format => format |}.

(** An item over that runtime, without a uid of its own. *)
Definition tally_item : gmap string (@Value tally_runtime) :=
  {[ "text" := @VStr tally_runtime "Weather" ]}.

(** An item whose uid is a template. *)
Definition templated_uid_item : gmap string Value :=
  {[ "uid" := VTemplate "now().date()"; "title" := VInt 7 ]}.

End FlashBriefingsCases.

(** ** Properties of the Assist pipeline integration *)

Import AssistPipeline AssistPipelineSpec.

Section BuildFacts.
Context `{T : ExternalTypes}.
Implicit Types (env : PipelineBehaviour) (self : AudioStreamPipelineBuilder) (tr : Trace).

Lemma required_true_guard self :
  required_true self <->
  all_ [truthy Context_bool (context self);
        truthy PipelineEventCallback_bool (event_callback self);
        truthy SpeechMetadata_bool (stt_metadata self);
        truthy AudioStream_bool (stt_stream self)] = true.
Proof.
  unfold required_true, all_. simpl. unfold id.
  rewrite !andb_true_iff. tauto.
Qed.

Lemma missing_required_guard self :
  missing_required self ->
  all_ [truthy Context_bool (context self);
        truthy PipelineEventCallback_bool (event_callback self);
        truthy SpeechMetadata_bool (stt_metadata self);
        truthy AudioStream_bool (stt_stream self)] = false.
Proof.
  intros Hmiss. apply not_true_iff_false. rewrite <- required_true_guard.
  intros (H1 & H2 & H3 & H4).
  destruct Hmiss as [E|[E|[E|E]]]; rewrite E in *; discriminate.
Qed.

(** When the guard does not hold the call ends at its first statement. *)
Lemma build_refused env self tr :
  ~ required_true self ->
  build env self tr = (Raised (ValueError "Missing required parameters"), tr).
Proof.
  rewrite required_true_guard. intros H%not_true_is_false. unfold build. by rewrite H.
Qed.

(** With a required field missing the call ends at its first statement. *)
Lemma build_missing env self tr :
  missing_required self ->
  build env self tr = (Raised (ValueError "Missing required parameters"), tr).
Proof.
  intros H%missing_required_guard. unfold build. by rewrite H.
Qed.

Lemma required_true_fields self :
  required_true self ->
  exists ctx cb metadata stream,
    context self = Some ctx /\ event_callback self = Some cb /\
    stt_metadata self = Some metadata /\ stt_stream self = Some stream.
Proof.
  intros (H1 & H2 & H3 & H4).
  destruct (context self) as [ctx|]; [|done].
  destruct (event_callback self) as [cb|]; [|done].
  destruct (stt_metadata self) as [md|]; [|done].
  destruct (stt_stream self) as [st|]; [|done].
  by exists ctx, cb, md, st.
Qed.

Lemma build_present env self tr ctx cb metadata stream :
  required_true self ->
  context self = Some ctx -> event_callback self = Some cb ->
  stt_metadata self = Some metadata -> stt_stream self = Some stream ->
  build env self tr = build_outcome env self tr ctx cb metadata stream.
Proof.
  intros Htrue%required_true_guard H1 H2 H3 H4. unfold build, build_outcome.
  rewrite Htrue, H1, H2, H3, H4. simpl.
  unfold async_get_pipeline, bind, record, modify, finish, ret, raise.
  destruct (resolve _ _) as [p|]; [|done]. simpl.
  fold (built_run self ctx cb p).
  set (run := built_run self ctx cb p).
  fold (built_input self metadata stream run).
  set (i := built_input self metadata stream run).
  destruct (new_run env run) as [e|]; [done|]. simpl.
  destruct (new_input env i) as [e|]; simpl.
  { by rewrite <- !app_assoc. }
  destruct (validate env i) as [ve [e|]]; simpl.
  - by rewrite <- !app_assoc.
  - destruct (execute env i) as [xe [e|]]; simpl; by rewrite <- !app_assoc.
Qed.
End BuildFacts.

Section BuildSteps.
Context `{T : ExternalTypes}.
Implicit Types (env : PipelineBehaviour) (self : AudioStreamPipelineBuilder) (tr : Trace).

(** Past the check and the lookup, the steps are the lookup, then the run
    and the input built from the builder's fields as far as their
    constructors accept them, then validation, and [execute] unless
    validation raised. *)
Lemma build_steps env self tr ctx cb metadata stream p :
  required_true self ->
  context self = Some ctx -> event_callback self = Some cb ->
  stt_metadata self = Some metadata -> stt_stream self = Some stream ->
  resolve (pipeline_store (hass self)) (pipeline_id self) = Some p ->
  let run := built_run self ctx cb p in
  let i := built_input self metadata stream run in
  steps_since tr (build env self tr).2 = steps_after_lookup env self run i.
Proof.
  intros Htrue H1 H2 H3 H4 Hp run i.
  rewrite (build_present env self tr ctx cb metadata stream) by done.
  unfold build_outcome, steps_since, steps_after_lookup. rewrite Hp. fold run. fold i.
  destruct (new_run env run); [simpl; by rewrite drop_app_length|].
  destruct (new_input env i); [simpl; by rewrite drop_app_length|].
  destruct ((validate env i).2); [|destruct ((execute env i).2)]; simpl;
    rewrite <- ?app_assoc, drop_app_length; done.
Qed.

Lemma steps_after_lookup_run env self run i run' :
  ConstructRun run' ∈ steps_after_lookup env self run i -> run' = run.
Proof.
  unfold steps_after_lookup.
  destruct (new_run env run), (new_input env i), ((validate env i).2);
    intros Hin;
    repeat (apply elem_of_cons in Hin as [Hin|Hin]; [congruence|]);
    by apply elem_of_nil in Hin.
Qed.

Lemma steps_after_lookup_run_accepted env self run i :
  new_run env run = None -> steps_after_lookup env self run i !! 1 = Some (ConstructRun run).
Proof. intros Hrun. unfold steps_after_lookup. by rewrite Hrun. Qed.
End BuildSteps.

Section BuildClaims.
Context `{T : ExternalTypes}.
Implicit Types (env : PipelineBehaviour) (self : AudioStreamPipelineBuilder) (tr : Trace).

(** C1, as the code has it. When one of context, event_callback,
    stt_metadata and stt_stream is [None], [build] raises the
    missing-parameter error [ValueError("Missing required parameters")];
    so it does when one of them is set but false, since the guard is
    [not all([...])]; when all four are set and true it never raises a
    [ValueError], whatever the pipeline behind it does. *)
Theorem build_requires_four_fields env self tr :
  (context self = None \/ event_callback self = None \/
   stt_metadata self = None \/ stt_stream self = None ->
   (build env self tr).1 = Raised (ValueError "Missing required parameters"))
  /\ (~ required_true self ->
      (build env self tr).1 = Raised (ValueError "Missing required parameters"))
  /\ (required_true self ->
      forall msg, (build env self tr).1 <> Raised (ValueError msg)).
Proof.
  split; [|split].
  - intros H. by rewrite build_missing.
  - intros H. by rewrite build_refused.
  - intros H msg.
    destruct (required_true_fields self H) as (ctx & cb & md & st & H1 & H2 & H3 & H4).
    rewrite (build_present env self tr ctx cb md st) by done.
    unfold build_outcome.
    destruct (resolve _ _); [|done]. simpl.
    destruct (new_run env _); [done|].
    destruct (new_input env _); [done|].
    destruct ((validate env _).2); [done|].
    by destruct ((execute env _).2).
Qed.

(** C2, as the code has it. Whenever [build] returns, it has resolved the
    pipeline, constructed the run and the input, called [validate] on
    the input and then called [execute] on it, in this order and neither
    raising; the value returned is [None], not the input. *)
Theorem build_validates_then_executes env self tr tr' :
  build env self tr = (Returned tt, tr') ->
  exists ctx cb metadata stream pipeline,
    context self = Some ctx /\ event_callback self = Some cb /\
    stt_metadata self = Some metadata /\ stt_stream self = Some stream /\
    resolve (pipeline_store (hass self)) (pipeline_id self) = Some pipeline /\
    let run := built_run self ctx cb pipeline in
    let i := built_input self metadata stream run in
    steps_since tr tr' =
      [ResolvePipeline (pipeline_id self); ConstructRun run; ConstructInput i;
       Validate i (validate env i).1; Execute i (execute env i).1]
    /\ (validate env i).2 = None /\ (execute env i).2 = None.
Proof.
  intros Hb.
  destruct (decide (all_ [truthy Context_bool (context self);
                          truthy PipelineEventCallback_bool (event_callback self);
                          truthy SpeechMetadata_bool (stt_metadata self);
                          truthy AudioStream_bool (stt_stream self)] = true))
    as [Hall|Hnot].
  - apply required_true_guard in Hall.
    destruct (required_true_fields self Hall) as (ctx & cb & md & st & H1 & H2 & H3 & H4).
    exists ctx, cb, md, st.
    rewrite (build_present env self tr ctx cb md st) in Hb by done.
    unfold build_outcome in Hb.
    destruct (resolve _ _) as [p|]; [|done]. exists p.
    simpl in Hb.
    destruct (new_run env _); [done|].
    destruct (new_input env _); [done|].
    destruct ((validate env _).2) eqn:Hv; [done|].
    destruct ((execute env _).2) eqn:Hx; [done|].
    injection Hb as <-.
    repeat split; try done.
    unfold steps_since. by rewrite <- app_assoc, drop_app_length.
  - rewrite <- required_true_guard in Hnot.
    by rewrite build_refused in Hb.
Qed.

(** C3. With a required field missing, [build] raises the
    missing-parameter error having taken no step at all: the trace is the
    one it started from, so no pipeline was resolved, no PipelineRun or
    PipelineInput was constructed, and neither [validate] nor [execute],
    the only places where audio is consumed or the event callback is
    invoked, was called. *)
Theorem build_fails_before_any_step env self tr :
  missing_required self ->
  build env self tr = (Raised (ValueError "Missing required parameters"), tr)
  /\ steps_since tr (build env self tr).2 = [].
Proof.
  intros H. rewrite build_missing by done. split; [done|].
  unfold steps_since. simpl. by rewrite drop_all.
Qed.

(** C4. Once the check of the required fields is passed, the first step
    of [build] is the lookup of the builder's optional pipeline_id. If the
    identifier does not resolve and no default exists, [build] raises
    PipelineNotFound right after that lookup; if the lookup resolves to a
    configuration, every PipelineRun constructed is bound to that
    configuration, and one is constructed as the second step whenever the
    constructor accepts the run. *)
Theorem build_resolves_pipeline env self tr :
  required_true self ->
  let registry := pipeline_store (hass self) in
  let steps := steps_since tr (build env self tr).2 in
  steps !! 0 = Some (ResolvePipeline (pipeline_id self))
  /\ ((forall i, pipeline_id self = Some i -> pipelines registry !! i = None) ->
      default_pipeline registry = None ->
      build env self tr =
        (Raised (PipelineNotFound (pipeline_id self)),
         tr ++ [ResolvePipeline (pipeline_id self)]))
  /\ (forall p, resolve registry (pipeline_id self) = Some p ->
      (forall run, ConstructRun run ∈ steps -> run_pipeline run = p) /\
      (forall ctx cb, context self = Some ctx -> event_callback self = Some cb ->
         new_run env (built_run self ctx cb p) = None ->
         steps !! 1 = Some (ConstructRun (built_run self ctx cb p)))).
Proof.
  intros Htrue registry steps.
  destruct (required_true_fields self Htrue) as (ctx & cb & md & st & H1 & H2 & H3 & H4).
  split; [|split].
  - subst steps. rewrite (build_present env self tr ctx cb md st) by done.
    unfold build_outcome, steps_since.
    destruct (resolve _ _); [|simpl; by rewrite drop_app_length].
    destruct (new_run env _); [simpl; by rewrite drop_app_length|].
    destruct (new_input env _); [simpl; by rewrite drop_app_length|].
    simpl. destruct ((validate env _).2); [|destruct ((execute env _).2)]; simpl;
      rewrite <- ?app_assoc, drop_app_length; done.
  - intros Hid Hdef.
    rewrite (build_present env self tr ctx cb md st) by done.
    unfold build_outcome.
    subst registry.
    assert (resolve (pipeline_store (hass self)) (pipeline_id self) = None) as ->; [|done].
    unfold resolve. rewrite Hdef. destruct (pipeline_id self) as [i|]; simpl; [|done].
    by rewrite (Hid i eq_refl).
  - intros p Hp. subst steps.
    rewrite (build_steps env self tr ctx cb md st p) by done. split.
    + intros run Hrun. apply steps_after_lookup_run in Hrun. by subst run.
    + intros ctx' cb' Hc Hcb Hrun.
      rewrite H1 in Hc. rewrite H2 in Hcb. injection Hc as <-. injection Hcb as <-.
      by apply steps_after_lookup_run_accepted.
Qed.


(** C8. A freshly constructed builder has start_stage = STT,
    end_stage = TTS and every other parameter [None]; the wake-word stage
    is therefore outside the range of stages it asks to run. *)
Theorem init_defaults (h : HomeAssistant) :
  let self := __init__ h in
  hass self = h
  /\ start_stage self = STT /\ end_stage self = TTS
  /\ context self = None /\ event_callback self = None
  /\ stt_metadata self = None /\ stt_stream self = None
  /\ wake_word_phrase self = None /\ pipeline_id self = None
  /\ conversation_id self = None /\ tts_audio_output self = None
  /\ wake_word_settings self = None /\ audio_settings self = None
  /\ device_id self = None
  /\ stage_in_range WAKE_WORD (start_stage self) (end_stage self) = false.
Proof. repeat split. Qed.
End BuildClaims.

Section SetupClaims.
Context `{T : ExternalTypes}.
Variables DOMAIN DATA_CONFIG DATA_LAST_WAKE_UP : string.
Variables store migrations websocket_api : M ForeignError HomeAssistant unit.

Lemma async_setup_final_store (config : gmap string (gmap string string)) h :
  exists h0,
    data h0 !! DATA_LAST_WAKE_UP = Some (LastWakeUp ∅)
    /\ ((async_setup DOMAIN DATA_CONFIG DATA_LAST_WAKE_UP store migrations websocket_api
           config h).2 = (store h0).2
        \/ (async_setup DOMAIN DATA_CONFIG DATA_LAST_WAKE_UP store migrations websocket_api
              config h).2 = (migrations (store h0).2).2
        \/ (async_setup DOMAIN DATA_CONFIG DATA_LAST_WAKE_UP store migrations websocket_api
              config h).2 = (websocket_api (migrations (store h0).2).2).2).
Proof.
  set (h0 := set_data DATA_LAST_WAKE_UP (LastWakeUp ∅)
               (set_data DATA_CONFIG (ConfigData (default ∅ (config !! DOMAIN))) h)).
  exists h0. split; [by apply lookup_insert_eq|].
  unfold async_setup, bind, modify, ret, at_site. simpl. fold h0.
  destruct (store h0) as [[[]|e] h1]; simpl; [|by left].
  destruct (migrations h1) as [[[]|e] h2]; simpl; [|by right; left].
  destruct (websocket_api h2) as [[[]|e] h3]; simpl; by right; right.
Qed.

(** C6. Whatever [hass.data] held before, once [async_setup] has run the
    entry for the wake-word cooldown state is the empty mapping, provided
    the three set-up steps of the other modules leave that entry alone;
    and when those steps return, [async_setup] returns True. *)
Theorem async_setup_empties_last_wake_up (config : gmap string (gmap string string)) h :
  preserves_key DATA_LAST_WAKE_UP store ->
  preserves_key DATA_LAST_WAKE_UP migrations ->
  preserves_key DATA_LAST_WAKE_UP websocket_api ->
  let after := async_setup DOMAIN DATA_CONFIG DATA_LAST_WAKE_UP store migrations
                           websocket_api config h in
  data after.2 !! DATA_LAST_WAKE_UP = Some (LastWakeUp ∅)
  /\ (always_returns store -> always_returns migrations -> always_returns websocket_api ->
      after.1 = Returned true).
Proof.
  intros Hs Hm Hw after. split.
  - subst after.
    destruct (async_setup_final_store config h) as (h0 & H0 & [-> | [-> | ->]]).
    + by rewrite Hs.
    + by rewrite Hm, Hs.
    + by rewrite Hw, Hm, Hs.
  - intros Rs Rm Rw. subst after.
    unfold async_setup, bind, modify, ret, at_site. simpl.
    pose proof (Rs (set_data DATA_LAST_WAKE_UP (LastWakeUp ∅)
                             (set_data DATA_CONFIG
                                       (ConfigData (default ∅ (config !! DOMAIN))) h))) as R1.
    destruct (store _) as [o1 h1]. simpl in R1. subst o1.
    pose proof (Rm h1) as R2. destruct (migrations h1) as [o2 h2]. simpl in R2. subst o2.
    pose proof (Rw h2) as R3. destruct (websocket_api h2) as [o3 h3]. simpl in R3. by subst o3.
Qed.
End SetupClaims.

(** *** The claims on concrete builders *)

Section BuildExamples.
#[local] Existing Instance demo_types.

(** Counterexample to C1 as stated ("if all four are present, build()
    does not raise this missing-parameter error"): all four fields are
    set, but the stream holds no chunk and is false, and [build] raises
    the error without taking a step. *)
Lemma build_refuses_false_stream :
  (is_Some (context demo_builder_empty_stream)
   /\ is_Some (event_callback demo_builder_empty_stream)
   /\ is_Some (stt_metadata demo_builder_empty_stream)
   /\ is_Some (stt_stream demo_builder_empty_stream))
  /\ build demo_env demo_builder_empty_stream []
     = (Raised (ValueError "Missing required parameters"), []).
Proof.
  split; [|reflexivity]. repeat split; eexists; reflexivity.
Qed.

(** The builder without its stream and the one with a false stream are
    refused; the complete one is not. *)
Lemma build_requires_four_fields_witness :
  (build demo_env demo_builder_no_stream []).1
    = Raised (ValueError "Missing required parameters")
  /\ (build demo_env demo_builder_empty_stream []).1
    = Raised (ValueError "Missing required parameters")
  /\ forall msg,
      (build demo_env (demo_builder demo_hass None None) []).1 <> Raised (ValueError msg).
Proof.
  split; [|split].
  - refine (proj1 (build_requires_four_fields demo_env demo_builder_no_stream []) _).
    right; right; right. reflexivity.
  - refine (proj1 (proj2 (build_requires_four_fields demo_env demo_builder_empty_stream []))
              _).
    intros (_ & _ & _ & Hstream). vm_compute in Hstream. discriminate.
  - refine (proj2 (proj2 (build_requires_four_fields demo_env
                            (demo_builder demo_hass None None) [])) _).
    repeat split; reflexivity.
Defined.

(** Counterexample to C2 as stated ("after build() returns, no pipeline
    execution has been performed"): this call of [build] returns, and by
    then it has executed the input, consuming both audio chunks of the
    stream and invoking the event callback. *)
Lemma build_runs_the_pipeline :
  build demo_env (demo_builder demo_hass None None) []
    = (Returned tt,
       [ResolvePipeline None; ConstructRun demo_run; ConstructInput demo_input;
        Validate demo_input []; Execute demo_input demo_run_effects])
  /\ ~ leaves_pipeline_unrun
       (steps_since [] (build demo_env (demo_builder demo_hass None None) []).2).
Proof.
  split; [reflexivity|].
  unfold leaves_pipeline_unrun. vm_compute. discriminate.
Qed.

(** The complete builder on a pipeline that validates and runs cleanly. *)
Lemma build_validates_then_executes_witness :
  exists ctx cb metadata stream pipeline,
    Some "ctx" = Some ctx /\ Some "on_event" = Some cb /\
    Some "en-US/wav" = Some metadata /\ Some demo_stream = Some stream /\
    resolve (pipeline_store demo_hass) None = Some pipeline /\
    let self := demo_builder demo_hass None None in
    let run := built_run self ctx cb pipeline in
    let i := built_input self metadata stream run in
    steps_since [] (build demo_env self []).2 =
      [ResolvePipeline None; ConstructRun run; ConstructInput i;
       Validate i (validate demo_env i).1; Execute i (execute demo_env i).1]
    /\ (validate demo_env i).2 = None /\ (execute demo_env i).2 = None.
Proof.
  apply (build_validates_then_executes demo_env (demo_builder demo_hass None None) []
           (build demo_env (demo_builder demo_hass None None) []).2).
  reflexivity.
Defined.

(** The builder without its stream, starting from the empty trace. *)
Lemma build_fails_before_any_step_witness :
  build demo_env demo_builder_no_stream []
    = (Raised (ValueError "Missing required parameters"), [])
  /\ steps_since [] (build demo_env demo_builder_no_stream []).2 = [].
Proof.
  apply (build_fails_before_any_step demo_env demo_builder_no_stream []).
  right; right; right. reflexivity.
Defined.

(** A store without default: "attic" is unknown, "kitchen" resolves. *)
Lemma build_resolves_pipeline_witness :
  build demo_env (demo_builder bare_hass (Some "attic") None) []
    = (Raised (PipelineNotFound (Some "attic")), [ResolvePipeline (Some "attic")])
  /\ ((forall run,
         ConstructRun run ∈
           steps_since [] (build demo_env (demo_builder bare_hass (Some "kitchen") None) []).2 ->
         run_pipeline run = "Kitchen pipeline")
      /\ steps_since [] (build demo_env (demo_builder bare_hass (Some "kitchen") None) []).2
           !! 1
         = Some (ConstructRun (built_run (demo_builder bare_hass (Some "kitchen") None)
                                         "ctx" "on_event" "Kitchen pipeline"))).
Proof.
  split.
  - refine (proj1 (proj2 (build_resolves_pipeline demo_env
                            (demo_builder bare_hass (Some "attic") None) [] _)) _ _).
    + repeat split; reflexivity.
    + intros i [= <-]. reflexivity.
    + reflexivity.
  - destruct (proj2 (proj2 (build_resolves_pipeline demo_env
                              (demo_builder bare_hass (Some "kitchen") None) []
                              ltac:(repeat split; reflexivity)))
                "Kitchen pipeline" eq_refl) as [Hbound Hsecond].
    split; [exact Hbound|].
    exact (Hsecond "ctx" "on_event" eq_refl eq_refl eq_refl).
Defined.


(** Setting up again a [hass] with a detection on record forgets it. *)
Lemma async_setup_empties_last_wake_up_witness :
  let after := async_setup "assist_pipeline" "assist_pipeline.config"
                           "assist_pipeline.last_wake_up" demo_setup_pipeline_store
                           demo_setup_noop demo_setup_noop ∅ woken_hass in
  data woken_hass !! "assist_pipeline.last_wake_up" = Some (LastWakeUp {[ "okay nabu" := 17%Z ]})
  /\ data after.2 !! "assist_pipeline.last_wake_up" = Some (LastWakeUp ∅)
  /\ after.1 = Returned true.
Proof.
  assert (forall k, preserves_key k demo_setup_noop) as Hnoop by (intros k h; reflexivity).
  assert (preserves_key "assist_pipeline.last_wake_up" demo_setup_pipeline_store) as Hstore.
  { intros h. unfold demo_setup_pipeline_store, modify, set_data. simpl.
    apply lookup_insert_ne. discriminate. }
  destruct (async_setup_empties_last_wake_up
              "assist_pipeline" "assist_pipeline.config" "assist_pipeline.last_wake_up"
              demo_setup_pipeline_store demo_setup_noop demo_setup_noop ∅ woken_hass
              Hstore (Hnoop _) (Hnoop _)) as [Hdata Hret].
  split; [reflexivity|]. split; [exact Hdata|].
  apply Hret; intros h; reflexivity.
Defined.
End BuildExamples.

(** ** Properties of the Alexa flash-briefing view *)

Import FlashBriefings FlashBriefingsSpec.

Section FlashBriefingFacts.
Context `{C : Constants} `{R : Runtime}.
Implicit Types (item output : gmap string Value) (w : World).

Lemma encode_inj (a b : string) : encode a = encode b -> a = b.
Proof.
  unfold encode. intros Heq.
  rewrite <- (String.string_of_list_byte_of_string a),
          <- (String.string_of_list_byte_of_string b).
  by rewrite Heq.
Qed.

Lemma compare_digest_encode (a b : string) :
  compare_digest (encode a) (encode b) = true <-> a = b.
Proof.
  unfold compare_digest. rewrite bool_decide_eq_true.
  split; [apply encode_inj | by intros ->].
Qed.

Lemma configured_dict_get item key :
  configured item key <-> is_None (dict_get item key) = false.
Proof.
  unfold configured, dict_get. destruct (item !! key) as [v|]; simpl.
  - split.
    + intros (v' & [= <-] & Hv). by destruct v.
    + intros Hv. exists v. split; [done|]. by intros ->.
  - split; [by intros (v & ? & _) | done].
Qed.

Lemma configured_lookup item key :
  configured item key -> item !! key = Some (dict_get item key).
Proof. intros (v & Hv & _). unfold dict_get. by rewrite Hv. Qed.

Lemma add_text_field_eq output item conf attr :
  _add_text_field output item conf attr !! attr =
    if is_None (dict_get item conf) then output !! attr
    else Some (text_value (dict_get item conf)).
Proof.
  unfold _add_text_field.
  destruct (dict_get item conf); simpl; by rewrite ?lookup_insert_eq.
Qed.

Lemma add_text_field_ne output item conf attr key :
  attr <> key -> _add_text_field output item conf attr !! key = output !! key.
Proof.
  intros Hne. unfold _add_text_field.
  destruct (dict_get item conf); simpl; by rewrite ?lookup_insert_ne.
Qed.

Lemma attribute_keys_distinct :
  NoDup attribute_keys ->
  ATTR_TITLE_TEXT <> ATTR_MAIN_TEXT /\ ATTR_TITLE_TEXT <> ATTR_UID /\
  ATTR_TITLE_TEXT <> ATTR_STREAM_URL /\ ATTR_TITLE_TEXT <> ATTR_REDIRECTION_URL /\
  ATTR_TITLE_TEXT <> ATTR_UPDATE_DATE /\
  ATTR_MAIN_TEXT <> ATTR_UID /\ ATTR_MAIN_TEXT <> ATTR_STREAM_URL /\
  ATTR_MAIN_TEXT <> ATTR_REDIRECTION_URL /\ ATTR_MAIN_TEXT <> ATTR_UPDATE_DATE /\
  ATTR_UID <> ATTR_STREAM_URL /\ ATTR_UID <> ATTR_REDIRECTION_URL /\
  ATTR_UID <> ATTR_UPDATE_DATE /\
  ATTR_STREAM_URL <> ATTR_REDIRECTION_URL /\ ATTR_STREAM_URL <> ATTR_UPDATE_DATE /\
  ATTR_REDIRECTION_URL <> ATTR_UPDATE_DATE.
Proof.
  unfold attribute_keys. rewrite !NoDup_cons, !not_elem_of_cons. tauto.
Qed.

Lemma without_uid_cons item (items : list (gmap string Value)) :
  without_uid (item :: items) =
    (if is_None (dict_get item CONF_UID) then 1 else 0) + without_uid items.
Proof.
  unfold without_uid. rewrite filter_cons.
  destruct (is_None (dict_get item CONF_UID)); simpl; rewrite ?decide_True, ?decide_False by done; done.
Qed.

Ltac lookup_attribute :=
  repeat first
    [ rewrite lookup_insert_eq
    | rewrite lookup_insert_ne by done
    | rewrite add_text_field_eq
    | rewrite add_text_field_ne by done
    | rewrite lookup_empty ].

(** One item: the call returns, reads the clock once and draws a UUID
    exactly when the item has none; the entry holds the uid, the date and
    the configured text fields. *)
Lemma process_briefing_item_spec item w :
  NoDup attribute_keys ->
  exists output w',
    _process_briefing_item item w = (Returned output, w')
    /\ uuid_calls w' = uuid_calls w + without_uid [item]
    /\ clock_reads w' = S (clock_reads w)
    /\ log w' = log w
    /\ output !! ATTR_UID =
         Some (if is_None (dict_get item CONF_UID)
               then VStr (uuid4 (uuid_calls w)) else dict_get item CONF_UID)
    /\ output !! ATTR_UPDATE_DATE =
         Some (VStr (strftime (utcnow (clock_reads w)) DATE_FORMAT))
    /\ forall conf attr, (conf, attr) ∈ text_fields ->
         output !! attr =
           if is_None (dict_get item conf) then None
           else Some (text_value (dict_get item conf)).
Proof.
  intros Hkeys. apply attribute_keys_distinct in Hkeys.
  destruct Hkeys as (?&?&?&?&?&?&?&?&?&?&?&?&?&?&?).
  rewrite without_uid_cons. unfold without_uid. simpl.
  unfold _process_briefing_item, _add_uid, bind, ret, uuid_uuid4, dt_util_utcnow.
  destruct (is_None (dict_get item CONF_UID)) eqn:Huid; simpl;
    (eexists _, _; split; [reflexivity|]; simpl;
     split; [lia|]; split; [done|]; split; [done|];
     split; [|split]).
  all: try (intros conf attr Hin; unfold text_fields in Hin;
            repeat (apply elem_of_cons in Hin as [[= -> ->]|Hin]);
            try (by apply elem_of_nil in Hin)).
  all: lookup_attribute.
  all: done.
Qed.
End FlashBriefingFacts.

Section FlashBriefingClaims.
Context `{C : Constants} `{R : Runtime}.
Implicit Types (item output : gmap string Value) (w : World).

(** The whole list: one entry per item, in order; the i-th entry is
    built when i clock readings and one UUID per earlier item without a
    uid have been used. *)
Lemma generate_briefing_spec (items : list (gmap string Value)) w :
  NoDup attribute_keys ->
  exists briefing w',
    _generate_briefing items w = (Returned briefing, w')
    /\ length briefing = length items
    /\ uuid_calls w' = uuid_calls w + without_uid items
    /\ clock_reads w' = clock_reads w + length items
    /\ log w' = log w
    /\ forall i item, items !! i = Some item ->
         exists output,
           briefing !! i = Some output
           /\ output !! ATTR_UID =
                Some (if is_None (dict_get item CONF_UID)
                      then VStr (uuid4 (uuid_calls w + without_uid (take i items)))
                      else dict_get item CONF_UID)
           /\ output !! ATTR_UPDATE_DATE =
                Some (VStr (strftime (utcnow (clock_reads w + i)) DATE_FORMAT))
           /\ forall conf attr, (conf, attr) ∈ text_fields ->
                output !! attr =
                  if is_None (dict_get item conf) then None
                  else Some (text_value (dict_get item conf)).
Proof.
  intros Hkeys. revert w.
  induction items as [|item items IH]; intros w.
  - exists [], w. unfold without_uid. repeat split; simpl; try lia; try done.
  - destruct (process_briefing_item_spec item w Hkeys)
      as (output & w1 & Hitem & Hu1 & Hc1 & Hl1 & Huid & Hdate & Htext).
    destruct (IH w1) as (briefing & w' & Hrest & Hlen & Hu & Hc & Hl & Hentries).
    exists (output :: briefing), w'.
    rewrite without_uid_cons in *. change (without_uid []) with 0 in Hu1.
    split; [|split; [|split; [|split; [|split]]]].
    + unfold _generate_briefing in *. simpl. unfold bind at 1. rewrite Hitem.
      unfold bind at 1. by rewrite Hrest.
    + simpl. by rewrite Hlen.
    + lia.
    + simpl. lia.
    + congruence.
    + intros [|i] item' Hi; simpl in Hi.
      * injection Hi as <-. exists output. simpl.
        change (without_uid []) with 0. rewrite Nat.add_0_r.
        split; [done|]. split; [done|]. split; [|done].
        by rewrite Hdate, Nat.add_0_r.
      * destruct (Hentries i item' Hi) as (out & Hout & Huid' & Hdate' & Htext').
        exists out. simpl. rewrite without_uid_cons.
        split; [done|]. split; [|split; [|done]].
        -- rewrite Huid'. destruct (is_None (dict_get item' CONF_UID)); [|done].
           do 3 f_equal. lia.
        -- rewrite Hdate'. do 4 f_equal. lia.
Qed.

(** C10. For every list of briefing-item dictionaries [_generate_briefing]
    returns a list of the same length whose i-th entry is built from the
    i-th item. Each entry has the UID attribute: the item's own uid when
    one is configured, and otherwise the string of a UUID drawn during
    this call, by a call of [uuid4] no other entry uses. Each entry has
    the update-date attribute. Each entry has a text attribute (title,
    main text, stream URL, redirection URL) exactly when the item has the
    corresponding configuration key with a value other than [None]. The
    attribute names are taken to be pairwise different. *)
Theorem generate_briefing_entries (items : list (gmap string Value)) w :
  NoDup attribute_keys ->
  exists briefing w',
    _generate_briefing items w = (Returned briefing, w')
    /\ length briefing = length items
    /\ forall i item, items !! i = Some item ->
         exists output,
           briefing !! i = Some output
           /\ (configured item CONF_UID -> output !! ATTR_UID = item !! CONF_UID)
           /\ (~ configured item CONF_UID ->
               let n := uuid_calls w + without_uid (take i items) in
               output !! ATTR_UID = Some (VStr (uuid4 n))
               /\ uuid_calls w <= n < uuid_calls w'
               /\ forall j other, j < i -> items !! j = Some other ->
                    ~ configured other CONF_UID ->
                    uuid_calls w + without_uid (take j items) < n)
           /\ is_Some (output !! ATTR_UPDATE_DATE)
           /\ forall conf attr, (conf, attr) ∈ text_fields ->
                (is_Some (output !! attr) <-> configured item conf).
Proof.
  intros Hkeys.
  destruct (generate_briefing_spec items w Hkeys)
    as (briefing & w' & Hrun & Hlen & Hu & Hc & Hl & Hentries).
  exists briefing, w'. split; [done|]. split; [done|].
  intros i item Hi.
  destruct (Hentries i item Hi) as (output & Hout & Huid & Hdate & Htext).
  exists output. split; [done|]. split; [|split; [|split]].
  - intros Hconf. rewrite Huid, (configured_lookup _ _ Hconf).
    apply configured_dict_get in Hconf. by rewrite Hconf.
  - intros Hnone.
    assert (is_None (dict_get item CONF_UID) = true) as Hn.
    { destruct (is_None (dict_get item CONF_UID)) eqn:E; [done|].
      by apply configured_dict_get in E. }
    rewrite Hn in Huid. simpl. split; [done|].
    rewrite <- (take_drop_middle items i item Hi) in Hu.
    unfold without_uid in Hu |- *.
    rewrite filter_app, length_app, filter_cons, decide_True in Hu by done.
    simpl in Hu. split; [lia|].
    intros j other Hj Hother Hno.
    assert (is_None (dict_get other CONF_UID) = true) as Hno'.
    { destruct (is_None (dict_get other CONF_UID)) eqn:E; [done|].
      by apply configured_dict_get in E. }
    assert (take j items ++ other :: drop (S j) (take i items) = take i items) as Hmid.
    { pose proof (take_drop_middle (take i items) j other) as Hm.
      rewrite take_take, Nat.min_l in Hm by lia.
      apply Hm. by rewrite lookup_take_lt. }
    rewrite <- Hmid.
    rewrite filter_app, length_app, filter_cons, decide_True by done. simpl. lia.
  - by rewrite Hdate.
  - intros conf attr Hin. rewrite (Htext conf attr Hin), configured_dict_get.
    destruct (is_None (dict_get item conf)); split; intros H; try done.
Qed.
End FlashBriefingClaims.

Section FlashBriefingRequests.
Context `{C : Constants} `{R : Runtime} `{J : !JsonEncoder}.
Implicit Types (self : AlexaFlashBriefingView) (request : HomeAssistantRequest) (w : World).

Lemma process_briefing_item_returns (item : gmap string Value) w :
  exists output w', _process_briefing_item item w = (Returned output, w').
Proof.
  unfold _process_briefing_item, _add_uid, bind, ret, uuid_uuid4, dt_util_utcnow.
  destruct (is_None (dict_get item CONF_UID)); simpl; eauto.
Qed.

Lemma generate_briefing_returns (items : list (gmap string Value)) w :
  exists briefing w', _generate_briefing items w = (Returned briefing, w').
Proof.
  revert w. induction items as [|item items IH]; intros w.
  - by exists [], w.
  - destruct (process_briefing_item_returns item w) as (output & w1 & Hitem).
    destruct (IH w1) as (briefing & w' & Hrest).
    exists (output :: briefing), w'.
    unfold _generate_briefing in *. simpl.
    unfold bind at 1. rewrite Hitem. unfold bind at 1. by rewrite Hrest.
Qed.

Lemma logger_spec level msg arg w :
  exists w', logger level msg arg w = (Returned tt, w') /\ nothing_generated w w'.
Proof. eexists. split; [reflexivity|]. by split. Qed.

(** With a password configured, [_authenticate] returns, and returns
    True exactly for the request that carries that password. *)
Lemma authenticate_spec self request briefing_id w password :
  flash_briefings self !! CONF_PASSWORD = Some (CValue (VStr password)) ->
  exists w',
    _authenticate self request briefing_id w =
      (Returned (bool_decide (query request !! API_PASSWORD = Some password)), w')
    /\ nothing_generated w w'.
Proof.
  intros Hpw. unfold _authenticate. rewrite Hpw.
  destruct (query request !! API_PASSWORD) as [given|].
  - destruct (compare_digest (encode given) (encode password)) eqn:Hcmp; simpl.
    + apply compare_digest_encode in Hcmp as ->.
      exists w. rewrite bool_decide_true by done. by repeat split.
    + eexists. rewrite bool_decide_false.
      * split; [reflexivity|]. by split.
      * intros [= ->]. apply not_true_iff_false in Hcmp. apply Hcmp.
        by apply compare_digest_encode.
  - eexists. rewrite bool_decide_false by done. split; [reflexivity|]. by split.
Qed.

(** The three ways a request ends once a password is configured. *)
Lemma get_spec self request briefing_id w password :
  flash_briefings self !! CONF_PASSWORD = Some (CValue (VStr password)) ->
  exists w0 w1,
    nothing_generated w w0 /\ nothing_generated w w1 /\
    if bool_decide (query request !! API_PASSWORD = Some password) then
      match flash_briefings self !! briefing_id with
      | Some (CList items) =>
        exists briefing,
          (_generate_briefing items w0).1 = Returned briefing
          /\ get self request briefing_id w
             = (if serialisable briefing then Returned (Json briefing OK)
                else Raised HTTPInternalServerError,
                (_generate_briefing items w0).2)
      | _ => get self request briefing_id w = (Returned (Plain [] NOT_FOUND), w1)
      end
    else get self request briefing_id w = (Returned (Plain [] UNAUTHORIZED), w1).
Proof.
  intros Hpw.
  destruct (logger_spec DEBUG "Received Alexa flash briefing request for: %s" briefing_id w)
    as (wl & Hlog & Hgl).
  destruct (authenticate_spec self request briefing_id wl password Hpw)
    as (wa & Hauth & Hga).
  assert (nothing_generated w wa) as Hwa.
  { destruct Hgl, Hga. split; congruence. }
  remember (get self request briefing_id w) as result eqn:Hres.
  unfold get in Hres. unfold bind at 1 in Hres. rewrite Hlog in Hres.
  unfold bind at 1 in Hres. rewrite Hauth in Hres.
  destruct (bool_decide _); simpl in Hres.
  - destruct (flash_briefings self !! briefing_id) as [[v|items]|] eqn:Hcfg.
    + unfold bind, logger, modify, ret in Hres. simpl in Hres.
      eexists wa, _. split; [done|]. split; [|exact Hres].
      destruct Hwa. by split.
    + destruct (generate_briefing_returns items wa) as (briefing & w' & Hgen).
      exists wa, wa. split; [done|]. split; [done|].
      exists briefing. rewrite Hgen. split; [done|].
      unfold bind in Hres. rewrite Hgen in Hres. unfold json in Hres. simpl.
      by destruct (serialisable briefing).
    + unfold bind, logger, modify, ret in Hres. simpl in Hres.
      eexists wa, _. split; [done|]. split; [|exact Hres].
      destruct Hwa. by split.
  - by exists wa, wa.
Qed.

(** C7. With a password configured, for every request [get] returns the
    empty body with status UNAUTHORIZED (401) exactly when the request's
    password parameter is absent or differs from the configured
    password, and then no briefing content was generated; a JSON briefing
    is only ever served to a request that carries the configured
    password, and it is the briefing generated from the list configured
    for the briefing id. *)
Theorem get_unauthorized_iff self request briefing_id w password :
  flash_briefings self !! CONF_PASSWORD = Some (CValue (VStr password)) ->
  let result := get self request briefing_id w in
  (result.1 = Returned (Plain [] UNAUTHORIZED) <->
     (query request !! API_PASSWORD = None \/
      exists given, query request !! API_PASSWORD = Some given /\ given <> password))
  /\ (result.1 = Returned (Plain [] UNAUTHORIZED) -> nothing_generated w result.2)
  /\ (forall briefing status,
        result.1 = Returned (Json briefing status) ->
        query request !! API_PASSWORD = Some password
        /\ exists items w0,
             flash_briefings self !! briefing_id = Some (CList items)
             /\ nothing_generated w w0
             /\ (_generate_briefing items w0).1 = Returned briefing)
  /\ status_code UNAUTHORIZED = 401%Z.
Proof.
  intros Hpw result. subst result.
  destruct (get_spec self request briefing_id w password Hpw)
    as (w0 & w1 & Hg0 & Hg1 & Hget).
  assert (bool_decide (query request !! API_PASSWORD = Some password) = false <->
          (query request !! API_PASSWORD = None \/
           exists given, query request !! API_PASSWORD = Some given /\ given <> password))
    as Hdenied.
  { rewrite bool_decide_eq_false. destruct (query request !! API_PASSWORD) as [given|].
    - split.
      + intros Hne. right. exists given. split; [done|]. by intros ->.
      + intros [?|(g & [= <-] & Hne)]; [done|]. by intros [= ->].
    - split; [by left | done]. }
  destruct (bool_decide (query request !! API_PASSWORD = Some password)) eqn:Hauth.
  - apply bool_decide_eq_true in Hauth.
    assert ((get self request briefing_id w).1 <> Returned (Plain [] UNAUTHORIZED)) as Hnot.
    { destruct (flash_briefings self !! briefing_id) as [[v|items]|];
        try (rewrite Hget; simpl; congruence).
      destruct Hget as (briefing & _ & ->). simpl.
      destruct (serialisable briefing); congruence. }
    split; [|split; [|split]]; try done.
    + split; [done|]. intros H. by apply Hdenied in H.
    + intros briefing status Hjson. split; [done|].
      destruct (flash_briefings self !! briefing_id) as [[v|items]|];
        try (rewrite Hget in Hjson; simpl in Hjson; congruence).
      destruct Hget as (briefing' & Hgen & Hres). rewrite Hres in Hjson.
      simpl in Hjson. destruct (serialisable briefing'); [|done].
      injection Hjson as <- <-. by exists items, w0.
  - rewrite Hget. simpl. split; [|split; [|split]]; try done.
    split; [intros _; by apply Hdenied | done].
Qed.

(** C9. For a request that carries the configured password and a
    briefing id that the configuration does not map to a list (the key is
    absent, or its value is something else), [get] returns the empty body
    with status NOT_FOUND (404), and no briefing content was generated. *)
Theorem get_not_found self request briefing_id w password :
  flash_briefings self !! CONF_PASSWORD = Some (CValue (VStr password)) ->
  query request !! API_PASSWORD = Some password ->
  (forall items, flash_briefings self !! briefing_id <> Some (CList items)) ->
  let result := get self request briefing_id w in
  result.1 = Returned (Plain [] NOT_FOUND)
  /\ nothing_generated w result.2
  /\ status_code NOT_FOUND = 404%Z.
Proof.
  intros Hpw Hgiven Hnolist result. subst result.
  destruct (get_spec self request briefing_id w password Hpw)
    as (w0 & w1 & Hg0 & Hg1 & Hget).
  rewrite bool_decide_true in Hget by done.
  destruct (flash_briefings self !! briefing_id) as [[v|items]|];
    try (by rewrite Hget).
  by destruct (Hnolist items).
Qed.
End FlashBriefingRequests.

(** *** The claims on a concrete view *)

Section FlashBriefingExamples.
#[local] Existing Instance demo_constants.
#[local] Existing Instance demo_runtime.
#[local] Existing Instance demo_encoder.

(** A request with the wrong password for the "news" briefing. *)
Lemma get_unauthorized_iff_witness :
  let result := get demo_view (request_with {[ "password" := "guess" ]}) "news" fresh_world in
  (result.1 = Returned (Plain [] UNAUTHORIZED) <->
     ((request_with {[ "password" := "guess" ]}).(query) !! "password" = None \/
      exists given,
        (request_with {[ "password" := "guess" ]}).(query) !! "password" = Some given
        /\ given <> "s3cret"))
  /\ (result.1 = Returned (Plain [] UNAUTHORIZED) -> nothing_generated fresh_world result.2)
  /\ (forall briefing status,
        result.1 = Returned (Json briefing status) ->
        (request_with {[ "password" := "guess" ]}).(query) !! "password" = Some "s3cret"
        /\ exists items w0,
             flash_briefings demo_view !! "news" = Some (CList items)
             /\ nothing_generated fresh_world w0
             /\ (_generate_briefing items w0).1 = Returned briefing)
  /\ status_code UNAUTHORIZED = 401%Z.
Proof.
  refine (get_unauthorized_iff demo_view (request_with {[ "password" := "guess" ]})
            "news" fresh_world "s3cret" _).
  reflexivity.
Defined.

(** The right password, but no briefing called "sports". *)
Lemma get_not_found_witness :
  let result := get demo_view (request_with {[ "password" := "s3cret" ]}) "sports"
                    fresh_world in
  result.1 = Returned (Plain [] NOT_FOUND)
  /\ nothing_generated fresh_world result.2
  /\ status_code NOT_FOUND = 404%Z.
Proof.
  refine (get_not_found demo_view (request_with {[ "password" := "s3cret" ]})
            "sports" fresh_world "s3cret" _ _ _).
  - reflexivity.
  - reflexivity.
  - intros items. vm_compute. discriminate.
Defined.

(** The two items of the "news" briefing under the integration's names. *)
Lemma generate_briefing_entries_witness :
  exists briefing w',
    _generate_briefing [headline_item; stream_item] fresh_world = (Returned briefing, w')
    /\ length briefing = 2
    /\ forall i item, [headline_item; stream_item] !! i = Some item ->
         exists output,
           briefing !! i = Some output
           /\ (configured item "uid" -> output !! "uid" = item !! "uid")
           /\ (~ configured item "uid" ->
               let n := 0 + without_uid (take i [headline_item; stream_item]) in
               output !! "uid" = Some (VStr (uuid4 n))
               /\ 0 <= n < uuid_calls w'
               /\ forall j other, j < i -> [headline_item; stream_item] !! j = Some other ->
                    ~ configured other "uid" ->
                    0 + without_uid (take j [headline_item; stream_item]) < n)
           /\ is_Some (output !! "updateDate")
           /\ forall conf attr, (conf, attr) ∈ text_fields ->
                (is_Some (output !! attr) <-> configured item conf).
Proof.
  refine (generate_briefing_entries [headline_item; stream_item] fresh_world _).
  apply (bool_decide_unpack _). vm_compute. exact I.
Defined.
End FlashBriefingExamples.

(** ** Further properties of the Assist pipeline integration *)

Import AssistPipelineCases.

Section BuildCases.
Context `{T : ExternalTypes}.
Implicit Types (env : PipelineBehaviour) (self : AudioStreamPipelineBuilder) (tr : Trace).

(** X1. A builder straight out of [__init__] cannot be built: [build]
    raises the missing-parameter error and takes no step. *)
Theorem build_fresh_builder_refused env (h : HomeAssistant) tr :
  build env (__init__ h) tr = (Raised (ValueError "Missing required parameters"), tr).
Proof. apply build_missing. by left. Qed.

(** X2. When the check of the required fields is passed, the pipeline
    resolves, both constructors accept and [validate] raises, [build]
    lets that exception through and stops there: the pipeline was
    resolved, the run and the input were constructed and validation was
    attempted, but [execute] is not called. *)
Theorem build_stops_at_failed_validation env self tr ctx cb metadata stream p e :
  required_true self ->
  context self = Some ctx -> event_callback self = Some cb ->
  stt_metadata self = Some metadata -> stt_stream self = Some stream ->
  resolve (pipeline_store (hass self)) (pipeline_id self) = Some p ->
  let run := built_run self ctx cb p in
  let i := built_input self metadata stream run in
  new_run env run = None -> new_input env i = None ->
  (validate env i).2 = Some e ->
  build env self tr =
    (Raised (Propagated InValidate e),
     tr ++ [ResolvePipeline (pipeline_id self); ConstructRun run; ConstructInput i;
            Validate i (validate env i).1])
  /\ leaves_pipeline_unrun (steps_since tr (build env self tr).2).
Proof.
  intros Htrue H1 H2 H3 H4 Hp run i Hrun Hin He.
  rewrite (build_present env self tr ctx cb metadata stream) by done.
  unfold build_outcome. rewrite Hp. fold run. fold i. simpl. rewrite Hrun, Hin, He.
  split; [done|].
  unfold leaves_pipeline_unrun, steps_since. simpl. by rewrite drop_app_length.
Qed.

(** X3. When the check is passed, the pipeline resolves, both
    constructors accept, validation passes and [execute] raises, the
    exception of [execute] is the one [build] ends with, after the call
    was made. *)
Theorem build_propagates_execute_error env self tr ctx cb metadata stream p e :
  required_true self ->
  context self = Some ctx -> event_callback self = Some cb ->
  stt_metadata self = Some metadata -> stt_stream self = Some stream ->
  resolve (pipeline_store (hass self)) (pipeline_id self) = Some p ->
  let run := built_run self ctx cb p in
  let i := built_input self metadata stream run in
  new_run env run = None -> new_input env i = None ->
  (validate env i).2 = None ->
  (execute env i).2 = Some e ->
  build env self tr =
    (Raised (Propagated InExecute e),
     tr ++ [ResolvePipeline (pipeline_id self); ConstructRun run; ConstructInput i;
            Validate i (validate env i).1; Execute i (execute env i).1]).
Proof.
  intros Htrue H1 H2 H3 H4 Hp run i Hrun Hin Hv He.
  rewrite (build_present env self tr ctx cb metadata stream) by done.
  unfold build_outcome. rewrite Hp. fold run. fold i. simpl. rewrite Hrun, Hin, Hv, He.
  by rewrite <- app_assoc.
Qed.

(** X4. Nothing is dropped or swapped on the way. Once the check is
    passed and the pipeline resolved, there are a run carrying the
    builder's hass, context, callback, stage range, TTS output and
    wake-word settings, and an input wrapping that run and carrying the
    builder's conversation id, device id, wake-word phrase, STT metadata
    and stream, such that every step [build] takes is the lookup, the
    construction of that run, the construction of that input, or a call
    of [validate] or [execute] on that input. When both constructors
    accept, the steps are exactly these, in this order and once each,
    with the call of [execute] present exactly when [validate] did not
    raise. *)
Theorem build_passes_fields_through env self tr p :
  required_true self ->
  resolve (pipeline_store (hass self)) (pipeline_id self) = Some p ->
  let steps := steps_since tr (build env self tr).2 in
  exists run i,
    in_run i = run
    /\ in_conversation_id i = conversation_id self
    /\ in_device_id i = device_id self
    /\ in_wake_word_phrase i = wake_word_phrase self
    /\ Some (in_stt_metadata i) = stt_metadata self
    /\ Some (in_stt_stream i) = stt_stream self
    /\ run_hass run = hass self
    /\ Some (run_context run) = context self
    /\ Some (run_event_callback run) = event_callback self
    /\ run_start_stage run = start_stage self
    /\ run_end_stage run = end_stage self
    /\ run_tts_audio_output run = tts_audio_output self
    /\ run_wake_word_settings run = wake_word_settings self
    /\ (forall step, step ∈ steps ->
          step ∈ [ResolvePipeline (pipeline_id self); ConstructRun run; ConstructInput i;
                  Validate i (validate env i).1; Execute i (execute env i).1])
    /\ (new_run env run = None -> new_input env i = None ->
        steps =
          [ResolvePipeline (pipeline_id self); ConstructRun run; ConstructInput i;
           Validate i (validate env i).1] ++
          match (validate env i).2 with
          | Some _ => []
          | None => [Execute i (execute env i).1]
          end).
Proof.
  intros Htrue Hp steps.
  destruct (required_true_fields self Htrue) as (ctx & cb & md & st & H1 & H2 & H3 & H4).
  set (run := built_run self ctx cb p).
  set (i := built_input self md st run).
  exists run, i.
  subst steps. rewrite (build_steps env self tr ctx cb md st p) by done.
  fold run. fold i. unfold steps_after_lookup.
  repeat split; try done.
  - intros step.
    destruct (new_run env run), (new_input env i), ((validate env i).2);
      rewrite !elem_of_cons, !elem_of_nil; tauto.
  - intros Hrun Hin. by rewrite Hrun, Hin.
Qed.

(** X5. [build] returns exactly when the four required fields are set
    and true, the pipeline resolves, both constructors accept, and
    neither [validate] nor [execute] raises on the input built from
    them. *)
Theorem build_returns_iff env self tr :
  (build env self tr).1 = Returned tt <->
  exists ctx cb metadata stream p,
    required_true self /\
    context self = Some ctx /\ event_callback self = Some cb /\
    stt_metadata self = Some metadata /\ stt_stream self = Some stream /\
    resolve (pipeline_store (hass self)) (pipeline_id self) = Some p /\
    let run := built_run self ctx cb p in
    let i := built_input self metadata stream run in
    new_run env run = None /\ new_input env i = None /\
    (validate env i).2 = None /\ (execute env i).2 = None.
Proof.
  split.
  - intros Hb.
    destruct (decide (all_ [truthy Context_bool (context self);
                            truthy PipelineEventCallback_bool (event_callback self);
                            truthy SpeechMetadata_bool (stt_metadata self);
                            truthy AudioStream_bool (stt_stream self)] = true))
      as [Hall|Hnot].
    + apply required_true_guard in Hall.
      destruct (required_true_fields self Hall) as (ctx & cb & md & st & H1 & H2 & H3 & H4).
      exists ctx, cb, md, st.
      rewrite (build_present env self tr ctx cb md st) in Hb by done.
      unfold build_outcome in Hb.
      destruct (resolve _ _) as [p|]; [|done]. exists p. simpl in Hb.
      destruct (new_run env _) eqn:Hr; [done|].
      destruct (new_input env _) eqn:Hi; [done|].
      destruct ((validate env _).2) eqn:Hv; [done|].
      by destruct ((execute env _).2) eqn:Hx.
    + rewrite <- required_true_guard in Hnot. by rewrite build_refused in Hb.
  - intros (ctx & cb & md & st & p & Htrue & H1 & H2 & H3 & H4 & Hp & Hr & Hi & Hv & Hx).
    rewrite (build_present env self tr ctx cb md st) by done.
    unfold build_outcome. rewrite Hp. simpl. by rewrite Hr, Hi, Hv, Hx.
Qed.

(** X20. When the check is passed and the pipeline resolves but the
    PipelineRun constructor raises, [build] ends with that exception right
    after the lookup: no PipelineInput is constructed and neither
    [validate] nor [execute] is called. *)
Theorem build_stops_at_refused_run env self tr ctx cb p e :
  required_true self ->
  context self = Some ctx -> event_callback self = Some cb ->
  resolve (pipeline_store (hass self)) (pipeline_id self) = Some p ->
  new_run env (built_run self ctx cb p) = Some e ->
  build env self tr =
    (Raised (Propagated InPipelineRun e), tr ++ [ResolvePipeline (pipeline_id self)]).
Proof.
  intros Htrue H1 H2 Hp Hrun.
  destruct (required_true_fields self Htrue) as (ctx' & cb' & md & st & E1 & E2 & E3 & E4).
  rewrite H1 in E1. rewrite H2 in E2. injection E1 as <-. injection E2 as <-.
  rewrite (build_present env self tr ctx cb md st) by done.
  unfold build_outcome. rewrite Hp. simpl. by rewrite Hrun.
Qed.
End BuildCases.

Section SetupCases.
Context `{T : ExternalTypes}.
Variables DOMAIN DATA_CONFIG DATA_LAST_WAKE_UP : string.
Variables store migrations websocket_api : M ForeignError HomeAssistant unit.

Abbreviation setup := (async_setup DOMAIN DATA_CONFIG DATA_LAST_WAKE_UP store migrations
                                   websocket_api).
Abbreviation base := (setup_base DOMAIN DATA_CONFIG DATA_LAST_WAKE_UP).

(** The set-up steps run in order on the prepared [hass]; the first that
    raises ends the call. *)
Lemma async_setup_cases (config : gmap string (gmap string string)) h :
  setup config h =
    match store (base config h) with
    | (Raised e, h1) => (Raised (Propagated InSetupPipelineStore e), h1)
    | (Returned _, h1) =>
      match migrations h1 with
      | (Raised e, h2) => (Raised (Propagated InRunMigrations e), h2)
      | (Returned _, h2) =>
        match websocket_api h2 with
        | (Raised e, h3) => (Raised (Propagated InRegisterWebsocketApi e), h3)
        | (Returned _, h3) => (Returned true, h3)
        end
      end
    end.
Proof.
  unfold async_setup, setup_base, bind, modify, ret, at_site. simpl.
  destruct (store _) as [[[]|e] h1]; simpl; [|done].
  destruct (migrations h1) as [[[]|e] h2]; simpl; [|done].
  by destruct (websocket_api h2) as [[[]|e] h3].
Qed.

Lemma async_setup_store_preserved (k : string) (config : gmap string (gmap string string)) h :
  preserves_key k store -> preserves_key k migrations -> preserves_key k websocket_api ->
  data (setup config h).2 !! k = data (base config h) !! k.
Proof.
  intros Hs Hm Hw. rewrite async_setup_cases.
  pose proof (Hs (base config h)) as Es.
  destruct (store (base config h)) as [[[]|e] h1]; simpl in *; [|done].
  pose proof (Hm h1) as Em.
  destruct (migrations h1) as [[[]|e] h2]; simpl in *; [|congruence].
  pose proof (Hw h2) as Ew.
  destruct (websocket_api h2) as [[[]|e] h3]; simpl in *; congruence.
Qed.

(** X6. [async_setup] stores the integration's section of the
    configuration under DATA_CONFIG, and the empty dictionary when the
    configuration has no such section, provided DATA_CONFIG and
    DATA_LAST_WAKE_UP are different keys and the later set-up steps leave
    the entry alone. *)
Theorem async_setup_stores_config_section (config : gmap string (gmap string string)) h :
  DATA_CONFIG <> DATA_LAST_WAKE_UP ->
  preserves_key DATA_CONFIG store ->
  preserves_key DATA_CONFIG migrations ->
  preserves_key DATA_CONFIG websocket_api ->
  let after := async_setup DOMAIN DATA_CONFIG DATA_LAST_WAKE_UP store migrations
                           websocket_api config h in
  (forall section, config !! DOMAIN = Some section ->
     data after.2 !! DATA_CONFIG = Some (ConfigData section))
  /\ (config !! DOMAIN = None -> data after.2 !! DATA_CONFIG = Some (ConfigData ∅)).
Proof.
  intros Hne Hs Hm Hw after. subst after.
  assert (data (setup config h).2 !! DATA_CONFIG
          = Some (ConfigData (default ∅ (config !! DOMAIN)))) as Hcfg.
  { rewrite async_setup_store_preserved by done.
    unfold setup_base, set_data. simpl.
    rewrite lookup_insert_ne by done. by rewrite lookup_insert_eq. }
  split.
  - intros section Hsec. by rewrite Hcfg, Hsec.
  - intros Hnone. by rewrite Hcfg, Hnone.
Qed.

(** X7. [async_setup] writes two entries of [hass.data] and no other:
    every entry under another key that the later set-up steps leave
    alone is the same after the call as before. *)
Theorem async_setup_leaves_other_entries (config : gmap string (gmap string string)) h k :
  k <> DATA_CONFIG -> k <> DATA_LAST_WAKE_UP ->
  preserves_key k store -> preserves_key k migrations -> preserves_key k websocket_api ->
  let after := async_setup DOMAIN DATA_CONFIG DATA_LAST_WAKE_UP store migrations
                           websocket_api config h in
  data after.2 !! k = data h !! k.
Proof.
  intros Hc Hl Hs Hm Hw after. subst after. rewrite async_setup_store_preserved by done.
  unfold setup_base, set_data. simpl.
  by rewrite !lookup_insert_ne.
Qed.

(** X8. A set-up step that raises ends [async_setup] at once: when the
    pipeline store cannot be set up, its exception escapes and neither
    the migrations nor the websocket registration run; when the
    migrations raise, the websocket registration does not run. *)
Theorem async_setup_stops_at_first_failure (config : gmap string (gmap string string)) h :
  let prepared := setup_base DOMAIN DATA_CONFIG DATA_LAST_WAKE_UP config h in
  let result := async_setup DOMAIN DATA_CONFIG DATA_LAST_WAKE_UP store migrations
                            websocket_api config h in
  (forall e, (store prepared).1 = Raised e ->
     result = (Raised (Propagated InSetupPipelineStore e), (store prepared).2))
  /\ (forall e, (store prepared).1 = Returned tt ->
      (migrations (store prepared).2).1 = Raised e ->
      result = (Raised (Propagated InRunMigrations e), (migrations (store prepared).2).2)).
Proof.
  intros prepared result. subst prepared result.
  rewrite async_setup_cases.
  destruct (store (base config h)) as [[[]|e1] h1]; simpl.
  - split; [done|]. intros e _ He.
    destruct (migrations h1) as [[[]|e2] h2]; simpl in *; congruence.
  - split; [|done]. by intros e [= ->].
Qed.

(** X9. [async_setup] never returns False: it returns True, or it ends
    with the exception of one of its three set-up steps. *)
Theorem async_setup_true_or_raises (config : gmap string (gmap string string)) h :
  let after := async_setup DOMAIN DATA_CONFIG DATA_LAST_WAKE_UP store migrations
                           websocket_api config h in
  after.1 = Returned true
  \/ exists site e, after.1 = Raised (Propagated site e) /\ site ∈ setup_sites.
Proof.
  intros after. subst after. rewrite async_setup_cases. unfold setup_sites.
  destruct (store (base config h)) as [[[]|e1] h1]; simpl.
  - destruct (migrations h1) as [[[]|e2] h2]; simpl.
    + destruct (websocket_api h2) as [[[]|e3] h3]; simpl; [by left|].
      right. exists InRegisterWebsocketApi, e3. split; [done|]. set_solver.
    + right. exists InRunMigrations, e2. split; [done|]. set_solver.
  - right. exists InSetupPipelineStore, e1. split; [done|]. set_solver.
Qed.
End SetupCases.

(** ** Further properties of the Alexa flash-briefing view *)

Import FlashBriefingsCases.

Section ForEachFacts.
Context {E S A B : Type}.

(** Running the loop over a concatenation is running it over the first
    list and then, from the store reached, over the second. *)
Lemma for_each_app (f : A -> M E S B) (xs ys : list A) s :
  for_each f (xs ++ ys) s =
    match for_each f xs s with
    | (Returned bx, s1) =>
      match for_each f ys s1 with
      | (Returned by_, s2) => (Returned (bx ++ by_), s2)
      | (Raised e, s2) => (Raised e, s2)
      end
    | (Raised e, s1) => (Raised e, s1)
    end.
Proof.
  revert s. induction xs as [|x xs IH]; intros s; simpl.
  - unfold ret. by destruct (for_each f ys s) as [[b|e] s2].
  - unfold bind. destruct (f x s) as [[y|e] s0]; [|done].
    rewrite IH.
    destruct (for_each f xs s0) as [[bx|e] s1]; [|done].
    unfold ret. simpl. by destruct (for_each f ys s1) as [[by_|e] s2].
Qed.
End ForEachFacts.

Section FlashBriefingCases.
Context `{C : Constants} `{R : Runtime} `{J : !JsonEncoder}.
Implicit Types (self : AlexaFlashBriefingView) (request : HomeAssistantRequest)
         (item output : gmap string Value) (w : World).

Lemma process_briefing_item_accounting item w :
  exists output w',
    _process_briefing_item item w = (Returned output, w')
    /\ uuid_calls w' = uuid_calls w + without_uid [item]
    /\ clock_reads w' = S (clock_reads w)
    /\ log w' = log w.
Proof.
  rewrite without_uid_cons. unfold without_uid. simpl.
  unfold _process_briefing_item, _add_uid, bind, ret, uuid_uuid4, dt_util_utcnow.
  destruct (is_None (dict_get item CONF_UID)); simpl;
    (eexists _, _; split; [reflexivity|]; simpl; repeat split; lia).
Qed.

Lemma generate_briefing_accounting_spec (items : list (gmap string Value)) w :
  exists briefing w',
    _generate_briefing items w = (Returned briefing, w')
    /\ length briefing = length items
    /\ uuid_calls w' = uuid_calls w + without_uid items
    /\ clock_reads w' = clock_reads w + length items
    /\ log w' = log w.
Proof.
  revert w. induction items as [|item items IH]; intros w.
  - exists [], w. unfold without_uid. repeat split; simpl; lia.
  - destruct (process_briefing_item_accounting item w)
      as (output & w1 & Hitem & Hu1 & Hc1 & Hl1).
    destruct (IH w1) as (briefing & w' & Hrest & Hlen & Hu & Hc & Hl).
    exists (output :: briefing), w'.
    rewrite without_uid_cons in *. change (without_uid []) with 0 in Hu1.
    split; [|split; [|split; [|split]]].
    + unfold _generate_briefing in *. simpl. unfold bind at 1. rewrite Hitem.
      unfold bind at 1. by rewrite Hrest.
    + simpl. by rewrite Hlen.
    + lia.
    + simpl. lia.
    + congruence.
Qed.

(** The call of [get] by cases, once a password is configured. *)
Lemma get_cases self request briefing_id w password :
  flash_briefings self !! CONF_PASSWORD = Some (CValue (VStr password)) ->
  let w0 := logged DEBUG MSG_RECEIVED briefing_id w in
  get self request briefing_id w =
    match query request !! API_PASSWORD with
    | None => (Returned (Plain [] UNAUTHORIZED), logged ERROR MSG_NO_PASSWORD briefing_id w0)
    | Some given =>
      if bool_decide (given = password) then
        match flash_briefings self !! briefing_id with
        | Some (CList items) =>
          (match (_generate_briefing items w0).1 with
           | Returned b =>
             if serialisable b then Returned (Json b OK) else Raised HTTPInternalServerError
           | Raised e => Raised e
           end,
           (_generate_briefing items w0).2)
        | _ => (Returned (Plain [] NOT_FOUND), logged ERROR MSG_NOT_FOUND briefing_id w0)
        end
      else (Returned (Plain [] UNAUTHORIZED), logged ERROR MSG_WRONG_PASSWORD briefing_id w0)
    end.
Proof.
  intros Hpw w0. subst w0.
  unfold MSG_RECEIVED, MSG_NO_PASSWORD, MSG_WRONG_PASSWORD, MSG_NOT_FOUND.
  unfold logged, get, _authenticate, logger, modify. rewrite Hpw.
  unfold bind at 1.
  destruct (query request !! API_PASSWORD) as [given|]; [|done].
  destruct (bool_decide (given = password)) eqn:Heq.
  - apply bool_decide_eq_true in Heq as ->.
    assert (compare_digest (encode password) (encode password) = true) as ->
      by by apply compare_digest_encode.
    simpl. unfold bind at 1. unfold ret at 1. simpl.
    destruct (flash_briefings self !! briefing_id) as [[v|items]|]; try done.
    match goal with
    | |- context [_generate_briefing items ?w0] =>
      destruct (generate_briefing_accounting_spec items w0) as (b & w' & Hgen & _)
    end.
    unfold bind. rewrite Hgen. unfold json. simpl. by destruct (serialisable b).
  - apply bool_decide_eq_false in Heq.
    assert (compare_digest (encode given) (encode password) = false) as ->.
    { apply not_true_iff_false. by rewrite compare_digest_encode. }
    done.
Qed.

(** X10. A request without the password parameter is answered with the
    empty body and UNAUTHORIZED whatever the configuration holds, also
    when no password is configured or the briefing does not exist; the
    configured password is not looked at and nothing is generated. *)
Theorem get_without_password_unauthorized self request briefing_id w :
  query request !! API_PASSWORD = None ->
  get self request briefing_id w =
    (Returned (Plain [] UNAUTHORIZED),
     logged ERROR MSG_NO_PASSWORD briefing_id (logged DEBUG MSG_RECEIVED briefing_id w))
  /\ nothing_generated w (get self request briefing_id w).2.
Proof.
  intros Hq.
  assert (get self request briefing_id w =
          (Returned (Plain [] UNAUTHORIZED),
           logged ERROR MSG_NO_PASSWORD briefing_id (logged DEBUG MSG_RECEIVED briefing_id w)))
    as Hget.
  { unfold get, _authenticate. by rewrite Hq. }
  rewrite Hget. by split.
Qed.

(** X11. A request that carries a password makes [get] raise when the
    configuration cannot answer it: KeyError for the password key when
    the configuration has no password, AttributeError when the password
    entry is not a string. Nothing is generated on the way. *)
Theorem get_misconfigured_password_raises self request briefing_id w given :
  query request !! API_PASSWORD = Some given ->
  (flash_briefings self !! CONF_PASSWORD = None ->
   (get self request briefing_id w).1 = Raised (KeyError CONF_PASSWORD))
  /\ (forall entry, flash_briefings self !! CONF_PASSWORD = Some entry ->
      (forall password, entry <> CValue (VStr password)) ->
      (get self request briefing_id w).1 = Raised (AttributeError "encode"))
  /\ ((forall password,
         flash_briefings self !! CONF_PASSWORD <> Some (CValue (VStr password))) ->
      nothing_generated w (get self request briefing_id w).2).
Proof.
  intros Hq. unfold get, _authenticate. rewrite Hq.
  split; [|split].
  - by intros ->.
  - intros entry -> Hentry. destruct entry as [[| s | t | z]|items]; try done.
    by destruct (Hentry s).
  - intros Hno. destruct (flash_briefings self !! CONF_PASSWORD) as [[[| s | t | z]|items]|];
      try done.
    by destruct (Hno s).
Qed.

(** X12. The password entry is never served as a briefing: a request
    that carries the configured password and asks for the briefing named
    like the password key gets the empty body and NOT_FOUND. *)
Theorem get_never_serves_password_entry self request w password :
  flash_briefings self !! CONF_PASSWORD = Some (CValue (VStr password)) ->
  query request !! API_PASSWORD = Some password ->
  (get self request CONF_PASSWORD w).1 = Returned (Plain [] NOT_FOUND).
Proof.
  intros Hpw Hq. rewrite (get_cases self request CONF_PASSWORD w password Hpw).
  rewrite Hq, bool_decide_true by done. by rewrite Hpw.
Qed.

(** X13. A request that carries the configured password and names a
    configured list is answered from the briefing generated for that
    list, which has one entry per item: with a JSON response of status OK
    (200) holding it when it can be serialised, and with
    HTTPInternalServerError when it cannot. Either way the clock was read
    once per item and one UUID was drawn per item that has no uid of its
    own. *)
Theorem get_serves_configured_briefing self request briefing_id w password items :
  flash_briefings self !! CONF_PASSWORD = Some (CValue (VStr password)) ->
  query request !! API_PASSWORD = Some password ->
  flash_briefings self !! briefing_id = Some (CList items) ->
  let result := get self request briefing_id w in
  exists briefing,
    (_generate_briefing items (logged DEBUG MSG_RECEIVED briefing_id w)).1 = Returned briefing
    /\ length briefing = length items
    /\ (serialisable briefing = true -> result.1 = Returned (Json briefing OK))
    /\ (serialisable briefing = false -> result.1 = Raised HTTPInternalServerError)
    /\ uuid_calls result.2 = uuid_calls w + without_uid items
    /\ clock_reads result.2 = clock_reads w + length items
    /\ status_code OK = 200%Z.
Proof.
  intros Hpw Hq Hcfg result. subst result.
  rewrite (get_cases self request briefing_id w password Hpw).
  rewrite Hq, bool_decide_true, Hcfg by done.
  destruct (generate_briefing_accounting_spec items
              (logged DEBUG MSG_RECEIVED briefing_id w))
    as (b & w' & Hgen & Hlen & Hu & Hc & _).
  rewrite Hgen. simpl. exists b.
  repeat split; try done; by intros ->.
Qed.

(** X14. What [get] writes to the log once a password is configured:
    always the DEBUG record of the request first; then nothing when the
    briefing is served or cannot be serialised, and one ERROR record when
    the request is refused, with the message of the reason. Every record
    names the briefing id and nothing else of the request: no password
    reaches the log. Earlier records stay. No other outcome occurs. *)
Theorem get_log_records self request briefing_id w password :
  flash_briefings self !! CONF_PASSWORD = Some (CValue (VStr password)) ->
  let result := get self request briefing_id w in
  exists records,
    log result.2 = log w ++ (DEBUG, MSG_RECEIVED, briefing_id) :: records
    /\ match result.1 with
       | Returned (Json _ _) => records = []
       | Raised HTTPInternalServerError => records = []
       | Returned (Plain _ UNAUTHORIZED) =>
         records = [(ERROR,
                     match query request !! API_PASSWORD with
                     | None => MSG_NO_PASSWORD
                     | Some _ => MSG_WRONG_PASSWORD
                     end, briefing_id)]
       | Returned (Plain _ NOT_FOUND) => records = [(ERROR, MSG_NOT_FOUND, briefing_id)]
       | _ => False
       end.
Proof.
  intros Hpw result. subst result.
  rewrite (get_cases self request briefing_id w password Hpw).
  destruct (query request !! API_PASSWORD) as [given|]; simpl.
  - destruct (bool_decide (given = password)); simpl.
    + destruct (flash_briefings self !! briefing_id) as [[v|items]|]; simpl.
      * eexists. split; [by rewrite <- app_assoc|done].
      * destruct (generate_briefing_accounting_spec items
                    (logged DEBUG MSG_RECEIVED briefing_id w))
          as (b & w' & Hgen & _ & _ & _ & Hlog).
        rewrite Hgen. simpl. exists []. rewrite Hlog.
        by destruct (serialisable b).
      * eexists. split; [by rewrite <- app_assoc|done].
    + eexists. split; [by rewrite <- app_assoc|done].
  - eexists. split; [by rewrite <- app_assoc|done].
Qed.
End FlashBriefingCases.

Section BriefingEntryCases.
Context `{C : Constants} `{R : Runtime}.
Implicit Types (item output : gmap string Value) (w : World).

Lemma add_text_field_is_Some output item conf attr key :
  is_Some (_add_text_field output item conf attr !! key) <->
  (attr = key /\ configured item conf) \/ is_Some (output !! key).
Proof.
  rewrite configured_dict_get. unfold _add_text_field.
  destruct (is_None (dict_get item conf)) eqn:Hn; simpl.
  - split; [by right | by intros [[_ ?]|?]].
  - assert (forall v, is_Some (<[attr := v]> output !! key) <->
                      (attr = key /\ false = false) \/ is_Some (output !! key)) as Hins.
    { intros v. rewrite lookup_insert_is_Some'. split; intros [?|?]; auto. left. by destruct H. }
    destruct (dict_get item conf); apply Hins.
Qed.

(** X15. The keys of a briefing entry are the UID and update-date
    attributes and the attributes of the text fields the item configures,
    and no others: no other key of the item's dictionary finds its way
    into the output. *)
Theorem process_briefing_item_keys item w :
  exists output w',
    _process_briefing_item item w = (Returned output, w')
    /\ forall key,
         is_Some (output !! key) <->
         key = ATTR_UID \/ key = ATTR_UPDATE_DATE \/
         exists conf, (conf, key) ∈ text_fields /\ configured item conf.
Proof.
  unfold _process_briefing_item, _add_uid, bind, ret, uuid_uuid4, dt_util_utcnow.
  assert (forall key,
            (exists conf, (conf, key) ∈ text_fields /\ configured item conf) <->
            (ATTR_TITLE_TEXT = key /\ configured item CONF_TITLE) \/
            (ATTR_MAIN_TEXT = key /\ configured item CONF_TEXT) \/
            (ATTR_STREAM_URL = key /\ configured item CONF_AUDIO) \/
            (ATTR_REDIRECTION_URL = key /\ configured item CONF_DISPLAY_URL)) as Htext.
  { intros key. unfold text_fields. split.
    - intros (conf & Hin & Hconf).
      repeat (apply elem_of_cons in Hin as [[= -> <-]|Hin]; [tauto|]).
      by apply elem_of_nil in Hin.
    - intros [[<- ?]|[[<- ?]|[[<- ?]|[<- ?]]]]; eexists; (split; [|eassumption]);
        set_solver. }
  destruct (is_None (dict_get item CONF_UID)); simpl;
    (eexists _, _; split; [reflexivity|]; intros key; rewrite Htext;
     rewrite lookup_insert_is_Some', !add_text_field_is_Some,
       lookup_insert_is_Some', !add_text_field_is_Some;
     pose proof (lookup_empty_is_Some (M := gmap string) (A := Value) key);
     intuition congruence).
Qed.

(** X16. What the entries hold: entry i carries the i-th reading of the
    clock of this call, formatted with DATE_FORMAT; a text field whose
    configured value is a template holds the rendered string, any other
    configured value is copied as it is; a uid that is a template is
    copied unrendered. The attribute names are taken pairwise
    different. *)
Theorem generate_briefing_values (items : list (gmap string Value)) w :
  NoDup attribute_keys ->
  exists briefing w',
    _generate_briefing items w = (Returned briefing, w')
    /\ forall i item, items !! i = Some item ->
         exists output,
           briefing !! i = Some output
           /\ output !! ATTR_UPDATE_DATE =
                Some (VStr (strftime (utcnow (clock_reads w + i)) DATE_FORMAT))
           /\ (forall conf attr t, (conf, attr) ∈ text_fields ->
                 item !! conf = Some (VTemplate t) ->
                 output !! attr = Some (VStr (async_render t)))
           /\ (forall conf attr v, (conf, attr) ∈ text_fields ->
                 item !! conf = Some v -> v <> VNone -> is_Template v = false ->
                 output !! attr = Some v)
           /\ (forall t, item !! CONF_UID = Some (VTemplate t) ->
                 output !! ATTR_UID = Some (VTemplate t)).
Proof.
  intros Hkeys.
  destruct (generate_briefing_spec items w Hkeys)
    as (briefing & w' & Hrun & _ & _ & _ & _ & Hentries).
  exists briefing, w'. split; [done|].
  intros i item Hi.
  destruct (Hentries i item Hi) as (output & Hout & Huid & Hdate & Htext).
  exists output. split; [done|]. split; [done|]. split; [|split].
  - intros conf attr t Hin Hconf. rewrite (Htext conf attr Hin).
    unfold dict_get. by rewrite Hconf.
  - intros conf attr v Hin Hconf Hv Ht. rewrite (Htext conf attr Hin).
    unfold dict_get. rewrite Hconf. simpl. by destruct v.
  - intros t Ht. rewrite Huid. unfold dict_get. by rewrite Ht.
Qed.

(** X17. What generating a briefing costs: [_generate_briefing] reads the
    clock once per item, draws one UUID per item without a uid of its
    own, and writes nothing to the log; a list whose items all configure
    a uid draws no UUID at all. *)
Theorem generate_briefing_accounting (items : list (gmap string Value)) w :
  let after := (_generate_briefing items w).2 in
  clock_reads after = clock_reads w + length items
  /\ uuid_calls after = uuid_calls w + without_uid items
  /\ log after = log w
  /\ ((forall item, item ∈ items -> configured item CONF_UID) ->
      uuid_calls after = uuid_calls w).
Proof.
  destruct (generate_briefing_accounting_spec items w)
    as (briefing & w' & Hgen & _ & Hu & Hc & Hl).
  rewrite Hgen. simpl. repeat split; try done.
  intros Hall. rewrite Hu.
  assert (without_uid items = 0) as ->; [|lia].
  clear -Hall. induction items as [|item items IH]; [done|].
  rewrite without_uid_cons, IH.
  - assert (configured item CONF_UID) as Hc by (apply Hall; by left).
    apply configured_dict_get in Hc. by rewrite Hc.
  - intros other Hin. apply Hall. by right.
Qed.

(** X18. Generating the briefing of two lists put end to end gives the
    entries of the first followed by the entries of the second generated
    from the world the first left behind. *)
Theorem generate_briefing_app (xs ys : list (gmap string Value)) w :
  exists bx w1 by_ w2,
    _generate_briefing xs w = (Returned bx, w1)
    /\ _generate_briefing ys w1 = (Returned by_, w2)
    /\ _generate_briefing (xs ++ ys) w = (Returned (bx ++ by_), w2).
Proof.
  destruct (generate_briefing_accounting_spec xs w) as (bx & w1 & Hx & _).
  destruct (generate_briefing_accounting_spec ys w1) as (by_ & w2 & Hy & _).
  exists bx, w1, by_, w2. split; [done|]. split; [done|].
  unfold _generate_briefing in *. by rewrite for_each_app, Hx, Hy.
Qed.
End BriefingEntryCases.

Section FreshUids.
Context `{C : Constants} `{R : Runtime}.

Lemma without_uid_take_lt (items : list (gmap string Value)) i j item :
  i < j -> items !! i = Some item -> is_None (dict_get item CONF_UID) = true ->
  without_uid (take i items) < without_uid (take j items).
Proof.
  intros Hij Hi Hnone.
  assert (take i items ++ item :: drop (S i) (take j items) = take j items) as <-.
  { pose proof (take_drop_middle (take j items) i item) as Hm.
    rewrite take_take, Nat.min_l in Hm by lia.
    apply Hm. by rewrite lookup_take_lt. }
  unfold without_uid.
  rewrite filter_app, length_app, filter_cons, decide_True by done. simpl. lia.
Qed.

(** X19. Within one briefing the UIDs generated for items without a uid
    of their own are pairwise different, as long as [uuid4] never returns
    the same string twice. The attribute names are taken pairwise
    different. *)
Theorem generate_briefing_fresh_uids_distinct (items : list (gmap string Value)) w :
  NoDup attribute_keys ->
  (forall m n, uuid4 m = uuid4 n -> m = n) ->
  exists briefing w',
    _generate_briefing items w = (Returned briefing, w')
    /\ forall i j item_i item_j out_i out_j,
         i < j ->
         items !! i = Some item_i -> items !! j = Some item_j ->
         ~ configured item_i CONF_UID -> ~ configured item_j CONF_UID ->
         briefing !! i = Some out_i -> briefing !! j = Some out_j ->
         out_i !! ATTR_UID <> out_j !! ATTR_UID.
Proof.
  intros Hkeys Hinj.
  destruct (generate_briefing_spec items w Hkeys)
    as (briefing & w' & Hrun & _ & _ & _ & _ & Hentries).
  exists briefing, w'. split; [done|].
  intros i j item_i item_j out_i out_j Hij Hi Hj Hni Hnj Hoi Hoj.
  assert (forall item, ~ configured item CONF_UID ->
                       is_None (dict_get item CONF_UID) = true) as Hnone.
  { intros item Hn. destruct (is_None (dict_get item CONF_UID)) eqn:E; [done|].
    by apply configured_dict_get in E. }
  destruct (Hentries i item_i Hi) as (oi & Hoi' & Hui & _).
  destruct (Hentries j item_j Hj) as (oj & Hoj' & Huj & _).
  rewrite Hoi in Hoi'. injection Hoi' as <-.
  rewrite Hoj in Hoj'. injection Hoj' as <-.
  rewrite Hui, Huj, (Hnone item_i Hni), (Hnone item_j Hnj).
  intros [= Heq]. apply Hinj in Heq.
  pose proof (without_uid_take_lt items i j item_i Hij Hi (Hnone item_i Hni)). lia.
Qed.
End FreshUids.

(** *** The further properties on concrete inputs *)

Section BuildCaseExamples.
#[local] Existing Instance demo_types.

(** A pipeline that rejects the input at validation: nothing is run. *)
Lemma build_stops_at_failed_validation_witness :
  build strict_env (demo_builder demo_hass None None) [] =
    (Raised (Propagated InValidate "stt-provider-unsupported-metadata"),
     [ResolvePipeline None; ConstructRun demo_run; ConstructInput demo_input;
      Validate demo_input []])
  /\ leaves_pipeline_unrun
       (steps_since [] (build strict_env (demo_builder demo_hass None None) []).2).
Proof.
  refine (build_stops_at_failed_validation strict_env (demo_builder demo_hass None None) []
            "ctx" "on_event" "en-US/wav" demo_stream "Preferred pipeline"
            "stt-provider-unsupported-metadata" _ _ _ _ _ _ _ _ _);
    first [reflexivity | repeat split; reflexivity].
Defined.

(** A pipeline that fails after reading the first chunk. *)
Lemma build_propagates_execute_error_witness :
  build crashing_env (demo_builder demo_hass None None) [] =
    (Raised (Propagated InExecute "stt-stream-failed"),
     [ResolvePipeline None; ConstructRun demo_run; ConstructInput demo_input;
      Validate demo_input [];
      Execute demo_input [AudioConsumed [Byte.x01; Byte.x02]]]).
Proof.
  refine (build_propagates_execute_error crashing_env (demo_builder demo_hass None None) []
            "ctx" "on_event" "en-US/wav" demo_stream "Preferred pipeline"
            "stt-stream-failed" _ _ _ _ _ _ _ _ _ _);
    first [reflexivity | repeat split; reflexivity].
Defined.

(** A stage range that runs backwards is refused by the constructor. *)
Lemma build_stops_at_refused_run_witness :
  build demo_env demo_builder_reversed [] =
    (Raised (Propagated InPipelineRun "invalid-pipeline-stages"), [ResolvePipeline None]).
Proof.
  refine (build_stops_at_refused_run demo_env demo_builder_reversed []
            "ctx" "on_event" "Preferred pipeline" "invalid-pipeline-stages" _ _ _ _ _);
    first [reflexivity | repeat split; reflexivity].
Defined.

(** The complete builder with the kitchen pipeline and settings 7. *)
Lemma build_passes_fields_through_witness :
  let self := demo_builder demo_hass (Some "kitchen") (Some 7) in
  let steps := steps_since [] (build demo_env self []).2 in
  exists run i,
    in_run i = run
    /\ in_conversation_id i = conversation_id self
    /\ in_device_id i = device_id self
    /\ in_wake_word_phrase i = wake_word_phrase self
    /\ Some (in_stt_metadata i) = stt_metadata self
    /\ Some (in_stt_stream i) = stt_stream self
    /\ run_hass run = hass self
    /\ Some (run_context run) = context self
    /\ Some (run_event_callback run) = event_callback self
    /\ run_start_stage run = start_stage self
    /\ run_end_stage run = end_stage self
    /\ run_tts_audio_output run = tts_audio_output self
    /\ run_wake_word_settings run = wake_word_settings self
    /\ (forall step, step ∈ steps ->
          step ∈ [ResolvePipeline (pipeline_id self); ConstructRun run; ConstructInput i;
                  Validate i (validate demo_env i).1; Execute i (execute demo_env i).1])
    /\ (new_run demo_env run = None -> new_input demo_env i = None ->
        steps =
          [ResolvePipeline (pipeline_id self); ConstructRun run; ConstructInput i;
           Validate i (validate demo_env i).1] ++
          match (validate demo_env i).2 with
          | Some _ => []
          | None => [Execute i (execute demo_env i).1]
          end).
Proof.
  refine (build_passes_fields_through demo_env
            (demo_builder demo_hass (Some "kitchen") (Some 7)) [] "Kitchen pipeline" _ _).
  - repeat split; reflexivity.
  - reflexivity.
Defined.

(** The integration's section is stored; the other section is not. *)
Lemma async_setup_stores_config_section_witness :
  data (async_setup "assist_pipeline" "assist_pipeline.config"
                    "assist_pipeline.last_wake_up" demo_setup_pipeline_store
                    demo_setup_noop demo_setup_noop demo_config woken_hass).2
    !! "assist_pipeline.config"
  = Some (ConfigData {[ "debug_recording_dir" := "/share/recordings" ]}).
Proof.
  refine (proj1 (async_setup_stores_config_section
                   "assist_pipeline" "assist_pipeline.config" "assist_pipeline.last_wake_up"
                   demo_setup_pipeline_store demo_setup_noop demo_setup_noop
                   demo_config woken_hass _ _ _ _) _ _).
  - discriminate.
  - intros h. unfold demo_setup_pipeline_store, modify, set_data. simpl.
    apply lookup_insert_ne. discriminate.
  - intros h. reflexivity.
  - intros h. reflexivity.
  - reflexivity.
Defined.

(** The entry of another component survives the set-up. *)
Lemma async_setup_leaves_other_entries_witness :
  data (async_setup "assist_pipeline" "assist_pipeline.config"
                    "assist_pipeline.last_wake_up" demo_setup_pipeline_store
                    demo_setup_noop demo_setup_noop demo_config
                    (set_data "frontend" (ForeignData 3) woken_hass)).2
    !! "frontend"
  = data (set_data "frontend" (ForeignData 3) woken_hass) !! "frontend".
Proof.
  refine (async_setup_leaves_other_entries
            "assist_pipeline" "assist_pipeline.config" "assist_pipeline.last_wake_up"
            demo_setup_pipeline_store demo_setup_noop demo_setup_noop
            demo_config (set_data "frontend" (ForeignData 3) woken_hass) "frontend"
            _ _ _ _ _).
  - discriminate.
  - discriminate.
  - intros h. unfold demo_setup_pipeline_store, modify, set_data. simpl.
    apply lookup_insert_ne. discriminate.
  - intros h. reflexivity.
  - intros h. reflexivity.
Defined.

(** The pipeline store cannot be read: set-up ends there. *)
Lemma async_setup_stops_at_first_failure_witness :
  async_setup "assist_pipeline" "assist_pipeline.config" "assist_pipeline.last_wake_up"
              demo_setup_failing demo_setup_pipeline_store demo_setup_noop
              demo_config woken_hass
  = (Raised (Propagated InSetupPipelineStore "pipeline storage unreadable"),
     setup_base "assist_pipeline" "assist_pipeline.config" "assist_pipeline.last_wake_up"
                demo_config woken_hass).
Proof.
  refine (proj1 (async_setup_stops_at_first_failure
                   "assist_pipeline" "assist_pipeline.config" "assist_pipeline.last_wake_up"
                   demo_setup_failing demo_setup_pipeline_store demo_setup_noop
                   demo_config woken_hass) "pipeline storage unreadable" _).
  reflexivity.
Defined.
End BuildCaseExamples.

Section FlashBriefingCaseExamples.
#[local] Existing Instance demo_constants.
#[local] Existing Instance demo_runtime.
#[local] Existing Instance demo_encoder.

(** No password in the request, none in the configuration either. *)
Lemma get_without_password_unauthorized_witness :
  get open_view (request_with ∅) "news" fresh_world =
    (Returned (Plain [] UNAUTHORIZED),
     logged ERROR MSG_NO_PASSWORD "news" (logged DEBUG MSG_RECEIVED "news" fresh_world))
  /\ nothing_generated fresh_world (get open_view (request_with ∅) "news" fresh_world).2.
Proof.
  refine (get_without_password_unauthorized open_view (request_with ∅) "news" fresh_world _).
  reflexivity.
Defined.

(** A password sent to a view that has none configured. *)
Lemma get_misconfigured_password_raises_witness :
  (get open_view (request_with {[ "password" := "s3cret" ]}) "news" fresh_world).1
    = Raised (KeyError "password")
  /\ (get broken_view (request_with {[ "password" := "s3cret" ]}) "news" fresh_world).1
    = Raised (AttributeError "encode").
Proof.
  split.
  - refine (proj1 (get_misconfigured_password_raises open_view
                     (request_with {[ "password" := "s3cret" ]}) "news" fresh_world
                     "s3cret" _) _); reflexivity.
  - refine (proj1 (proj2 (get_misconfigured_password_raises broken_view
                     (request_with {[ "password" := "s3cret" ]}) "news" fresh_world
                     "s3cret" _)) (CList []) _ _).
    + reflexivity.
    + reflexivity.
    + intros password. discriminate.
Defined.

(** Asking for the briefing called "password" with the right password. *)
Lemma get_never_serves_password_entry_witness :
  (get demo_view (request_with {[ "password" := "s3cret" ]}) "password" fresh_world).1
    = Returned (Plain [] NOT_FOUND).
Proof.
  refine (get_never_serves_password_entry demo_view
            (request_with {[ "password" := "s3cret" ]}) fresh_world "s3cret" _ _);
    reflexivity.
Defined.

(** The "news" briefing: two entries, two clock readings, one UUID. *)
Lemma get_serves_configured_briefing_witness :
  let result := get demo_view (request_with {[ "password" := "s3cret" ]}) "news"
                    fresh_world in
  exists briefing,
    (_generate_briefing [headline_item; stream_item]
       (logged DEBUG MSG_RECEIVED "news" fresh_world)).1 = Returned briefing
    /\ length briefing = 2
    /\ (serialisable briefing = true -> result.1 = Returned (Json briefing OK))
    /\ (serialisable briefing = false -> result.1 = Raised HTTPInternalServerError)
    /\ uuid_calls result.2 = 0 + without_uid [headline_item; stream_item]
    /\ clock_reads result.2 = 0 + 2
    /\ status_code OK = 200%Z.
Proof.
  refine (get_serves_configured_briefing demo_view
            (request_with {[ "password" := "s3cret" ]}) "news" fresh_world "s3cret"
            [headline_item; stream_item] _ _ _); reflexivity.
Defined.

(** A wrong password leaves the request and one error in the log. *)
Lemma get_log_records_witness :
  let result := get demo_view (request_with {[ "password" := "guess" ]}) "news"
                    fresh_world in
  exists records,
    log result.2 = log fresh_world ++ (DEBUG, MSG_RECEIVED, "news") :: records
    /\ match result.1 with
       | Returned (Json _ _) => records = []
       | Raised HTTPInternalServerError => records = []
       | Returned (Plain _ UNAUTHORIZED) =>
         records = [(ERROR,
                     match (request_with {[ "password" := "guess" ]}).(query) !! "password" with
                     | None => MSG_NO_PASSWORD
                     | Some _ => MSG_WRONG_PASSWORD
                     end, "news")]
       | Returned (Plain _ NOT_FOUND) => records = [(ERROR, MSG_NOT_FOUND, "news")]
       | _ => False
       end.
Proof.
  refine (get_log_records demo_view (request_with {[ "password" := "guess" ]}) "news"
            fresh_world "s3cret" _).
  reflexivity.
Defined.

(** A rendered title, a copied number and an unrendered uid template. *)
Lemma generate_briefing_values_witness :
  exists briefing w',
    _generate_briefing [headline_item; templated_uid_item] fresh_world
      = (Returned briefing, w')
    /\ forall i item, [headline_item; templated_uid_item] !! i = Some item ->
         exists output,
           briefing !! i = Some output
           /\ output !! "updateDate" = Some (VStr (strftime (utcnow (0 + i)) DATE_FORMAT))
           /\ (forall conf attr t, (conf, attr) ∈ text_fields ->
                 item !! conf = Some (VTemplate t) ->
                 output !! attr = Some (VStr (async_render t)))
           /\ (forall conf attr v, (conf, attr) ∈ text_fields ->
                 item !! conf = Some v -> v <> VNone -> is_Template v = false ->
                 output !! attr = Some v)
           /\ (forall t, item !! "uid" = Some (VTemplate t) ->
                 output !! "uid" = Some (VTemplate t)).
Proof.
  refine (generate_briefing_values [headline_item; templated_uid_item] fresh_world _).
  apply (bool_decide_unpack _). vm_compute. exact I.
Defined.
End FlashBriefingCaseExamples.

Section FreshUidExamples.
#[local] Existing Instance demo_constants.
#[local] Existing Instance tally_runtime.

Lemma strokes_inj (m n : nat) : strokes m = strokes n -> m = n.
Proof.
  revert n. induction m as [|m IH]; intros [|n]; simpl; try done.
  intros [= H]. f_equal. by apply IH.
Qed.

(** Three items without uid get three different UIDs. *)
Lemma generate_briefing_fresh_uids_distinct_witness :
  exists briefing w',
    _generate_briefing [tally_item; tally_item; tally_item] fresh_world
      = (Returned briefing, w')
    /\ forall i j item_i item_j out_i out_j,
         i < j ->
         [tally_item; tally_item; tally_item] !! i = Some item_i ->
         [tally_item; tally_item; tally_item] !! j = Some item_j ->
         ~ configured item_i "uid" -> ~ configured item_j "uid" ->
         briefing !! i = Some out_i -> briefing !! j = Some out_j ->
         out_i !! "uid" <> out_j !! "uid".
Proof.
  refine (generate_briefing_fresh_uids_distinct
            [tally_item; tally_item; tally_item] fresh_world _ _).
  - apply (bool_decide_unpack _). vm_compute. exact I.
  - exact strokes_inj.
Defined.
End FreshUidExamples.
